(** * Booking sheet of a barbershop service: [service-item.tsx]

    Shallow embedding of the booking logic of the [ServiceItem] component
    (the submit handler [handleBookingSubmit], the memoised [timeList]
    filter, the day effect and the guard of the confirm button) together
    with the pieces of JavaScript and date-fns it relies on. *)

From Stdlib Require Import ZArith List Bool Ascii String Lia.
Import ListNotations.
Local Open Scope string_scope.
Local Open Scope list_scope.
Local Open Scope Z_scope.

(** ** JavaScript values used by the component *)

Module Js.

(** A JavaScript number, a double: NaN, an infinity or a finite value.  A
    finite value is held exactly: an integer as [Num z], any other as
    [Frac m k], which is [m / 2^k] with [m] odd.  The two zeros are one
    value here; nothing in the component tells them apart. *)
Inductive num : Type :=
| NaN
| Num (z : Z)
| Frac (m : Z) (k : positive)
| Infinity (negative : bool).

(** [a === b] on numbers: [NaN] differs from everything, itself included. *)
Definition strict_eq (a b : num) : bool :=
  match a, b with
  | Num x, Num y => Z.eqb x y
  | Num x, Frac m k => Z.eqb (x * 2 ^ Zpos k) m
  | Frac m k, Num y => Z.eqb m (y * 2 ^ Zpos k)
  | Frac m k, Frac m' k' => Z.eqb (m * 2 ^ Zpos k') (m' * 2 ^ Zpos k)
  | Infinity s, Infinity s' => Bool.eqb s s'
  | _, _ => false
  end.

(** [a < b] on numbers: false when either is [NaN]. *)
Definition lt (a b : num) : bool :=
  match a, b with
  | NaN, _ | _, NaN => false
  | _, Infinity true => false
  | Infinity true, _ => true
  | Infinity false, _ => false
  | _, Infinity false => true
  | Num x, Num y => x <? y
  | Num x, Frac m k => x * 2 ^ Zpos k <? m
  | Frac m k, Num y => m <? y * 2 ^ Zpos k
  | Frac m k, Frac m' k' => m * 2 ^ Zpos k' <? m' * 2 ^ Zpos k
  end.

Definition negate (a : num) : num :=
  match a with
  | NaN => NaN
  | Num z => Num (- z)
  | Frac m k => Frac (- m) k
  | Infinity s => Infinity (negb s)
  end.

(** The integer a finite number is cut to (towards zero), as the date
    setters take their arguments; none for [NaN] and the infinities. *)
Definition truncated (a : num) : option Z :=
  match a with
  | Num z => Some z
  | Frac m k => Some (Z.quot m (2 ^ Zpos k))
  | _ => None
  end.

(** [m / 2^k] in lowest terms. *)
Fixpoint reduce (m : positive) (k : nat) : num :=
  match k with
  | O => Num (Zpos m)
  | S k' =>
      match m with
      | xO m' => reduce m' k'
      | _ => Frac (Zpos m) (Pos.of_nat k)
      end
  end.

Definition dyadic (M : Z) (k : nat) : num :=
  match M with
  | Zpos m => reduce m k
  | _ => Num 0
  end.

(** The double nearest to [N / D], for [N] and [D] positive: 53 bits of
    mantissa, exponents down to the subnormal ones, ties to the even
    mantissa, overflow to infinity. *)
Definition nearest (N D : Z) : num :=
  let e0 := Z.log2 N - Z.log2 D in
  let below := if 0 <=? e0 then N <? D * 2 ^ e0 else N * 2 ^ (- e0) <? D in
  let fl := if below then e0 - 1 else e0 in
  let E := Z.max (fl - 52) (-1074) in
  let n := if 0 <=? E then N else N * 2 ^ (- E) in
  let d := if 0 <=? E then D * 2 ^ E else D in
  let q := n / d in
  let r := n mod d in
  let M := if 2 * r <? d then q
           else if d <? 2 * r then q + 1
           else if Z.even q then q else q + 1 in
  if 0 <=? E
  then if 2 ^ 1024 <=? M * 2 ^ E then Infinity false else Num (M * 2 ^ E)
  else dyadic M (Z.to_nat (- E)).

(** [String.prototype.split] with a one-character separator. *)
Fixpoint split (sep : ascii) (s : string) : list string :=
  match s with
  | EmptyString => [EmptyString]
  | String c rest =>
      if Ascii.eqb c sep then EmptyString :: split sep rest
      else match split sep rest with
           | [] => [String c EmptyString]
           | piece :: pieces => String c piece :: pieces
           end
  end.

(** Array indexing: [None] is [undefined]. *)
Definition index {A : Type} (l : list A) (i : nat) : option A := nth_error l i.

(** White space and line terminators that [Number] strips, among the code
    units below 256: tab, line feed, vertical tab, form feed, carriage
    return, space and no-break space. *)
Definition is_white (c : ascii) : bool :=
  let n := nat_of_ascii c in
  (Nat.leb 9 n && Nat.leb n 13) || Nat.eqb n 32 || Nat.eqb n 160.

Fixpoint trim_start (s : string) : string :=
  match s with
  | String c rest => if is_white c then trim_start rest else s
  | EmptyString => EmptyString
  end.

(** Drops the trailing white space: a character is kept when something that
    is not white space follows it or it is not white space itself. *)
Fixpoint trim_end (s : string) : string :=
  match s with
  | EmptyString => EmptyString
  | String c rest =>
      match trim_end rest with
      | EmptyString => if is_white c then EmptyString else String c EmptyString
      | kept => String c kept
      end
  end.

Definition trim (s : string) : string := trim_end (trim_start s).

(** The value of a character as a digit in a radix up to 16. *)
Definition digit (radix : Z) (c : ascii) : option Z :=
  let n := Z.of_nat (nat_of_ascii c) in
  let v := if (48 <=? n) && (n <=? 57) then n - 48
           else if (97 <=? n) && (n <=? 102) then n - 87
           else if (65 <=? n) && (n <=? 70) then n - 55
           else radix in
  if v <? radix then Some v else None.

Fixpoint digits (radix acc : Z) (s : string) : option Z :=
  match s with
  | EmptyString => Some acc
  | String c rest =>
      match digit radix c with
      | Some d => digits radix (radix * acc + d) rest
      | None => None
      end
  end.

(** A non-empty run of digits and nothing else. *)
Definition natural (radix : Z) (s : string) : option Z :=
  match s with
  | EmptyString => None
  | _ => digits radix 0 s
  end.

(** The leading decimal digits of a string, and what follows them. *)
Fixpoint span (s : string) : string * string :=
  match s with
  | EmptyString => (EmptyString, EmptyString)
  | String c rest =>
      match digit 10 c with
      | Some _ => let (ds, after) := span rest in (String c ds, after)
      | None => (EmptyString, s)
      end
  end.

(** An exponent part, or nothing. *)
Definition exponent (s : string) : option Z :=
  match s with
  | EmptyString => Some 0
  | String c rest =>
      if Ascii.eqb c "e" || Ascii.eqb c "E"
      then match rest with
           | String "+" r => natural 10 r
           | String "-" r => option_map Z.opp (natural 10 r)
           | _ => natural 10 rest
           end
      else None
  end.

(** An unsigned decimal literal (digits, an optional point and fraction with
    digits on at least one side, an optional exponent) as its digits read as
    one integer, the power of ten to scale it by, and how many digits. *)
Definition decimal (s : string) : option (Z * Z * Z) :=
  let (whole, r1) := span s in
  let (fraction, r2) :=
    match r1 with
    | String "." r => span r
    | _ => (EmptyString, r1)
    end in
  match String.append whole fraction with
  | EmptyString => None
  | ds =>
      match digits 10 0 ds, exponent r2 with
      | Some n, Some e =>
          Some (n, e - Z.of_nat (String.length fraction),
                Z.of_nat (String.length ds))
      | _, _ => None
      end
  end.

(** The double of [n * 10^scale], for [n] of [len] decimal digits.  A power
    of ten beyond 400 overflows whatever the digits; a value below 10^-400
    is below half the least double and rounds to zero. *)
Definition scaled (n scale len : Z) : num :=
  if n =? 0 then Num 0
  else if 400 <? scale then Infinity false
  else if scale + len <? -400 then Num 0
  else if 0 <=? scale then nearest (n * 10 ^ scale) 1
  else nearest n (10 ^ (- scale)).

Definition unsigned_literal (s : string) : num :=
  if String.eqb s "Infinity" then Infinity false
  else match decimal s with
       | Some (n, scale, len) => scaled n scale len
       | None => NaN
       end.

(** The radix and digits of a literal written [0x], [0o] or [0b]. *)
Definition prefixed (s : string) : option (Z * string) :=
  match s with
  | String "0" (String c rest) =>
      if Ascii.eqb c "x" || Ascii.eqb c "X" then Some (16, rest)
      else if Ascii.eqb c "o" || Ascii.eqb c "O" then Some (8, rest)
      else if Ascii.eqb c "b" || Ascii.eqb c "B" then Some (2, rest)
      else None
  | _ => None
  end.

(** [Number(s)] for a string.  White space is stripped; the empty string is
    [0]; a literal in radix 16, 8 or 2 is its integer; a decimal literal,
    signed or not, with or without fraction and exponent, or [Infinity], is
    its value; the value is rounded to the nearest double; anything else is
    [NaN]. *)
Definition Number_string (s : string) : num :=
  match trim s with
  | EmptyString => Num 0
  | t =>
      match prefixed t with
      | Some (radix, ds) =>
          match natural radix ds with
          | Some n => if n =? 0 then Num 0 else nearest n 1
          | None => NaN
          end
      | None =>
          match t with
          | String "+" rest => unsigned_literal rest
          | String "-" rest => negate (unsigned_literal rest)
          | _ => unsigned_literal t
          end
      end
  end.

(** [Number(x)] where [x] may be [undefined]. *)
Definition Number (x : option string) : num :=
  match x with
  | Some s => Number_string s
  | None => NaN
  end.

(** Truthiness of a [string | undefined]: the empty string is falsy. *)
Definition truthy_string (x : option string) : bool :=
  match x with
  | Some EmptyString => false
  | Some _ => true
  | None => false
  end.

(** Truthiness of an object reference or [undefined]. *)
Definition truthy_ref {A : Type} (x : option A) : bool :=
  match x with Some _ => true | None => false end.

End Js.

(** ** Dates

    A [Date] holds a time value, milliseconds since the epoch in UTC, or is
    an Invalid Date.  The getters and setters follow ECMAScript's
    definitions over the local time zone.  The zone is ECMAScript's
    [LocalTZA(t, isUTC)]: the offset in milliseconds in force at the UTC
    time [t] when [isUTC] is true, and the offset by which the local time
    [t] is read when it is false (for a local time that a clock change
    skips or repeats, the offset before the change). *)

Module JsDate.

Inductive Date : Type :=
| Invalid
| At (t : Z).

Definition msPerSecond : Z := 1000.
Definition msPerMinute : Z := 60000.
Definition msPerHour : Z := 3600000.
Definition msPerDay : Z := 86400000.
Definition maxTime : Z := 8640000000000000.

Definition Day (t : Z) : Z := t / msPerDay.
Definition TimeWithinDay (t : Z) : Z := t mod msPerDay.
Definition HourFromTime (t : Z) : Z := (t / msPerHour) mod 24.
Definition MinFromTime (t : Z) : Z := (t / msPerMinute) mod 60.
Definition SecFromTime (t : Z) : Z := (t / msPerSecond) mod 60.
Definition msFromTime (t : Z) : Z := t mod msPerSecond.

Definition MakeTime (hour min sec ms : Z) : Z :=
  hour * msPerHour + min * msPerMinute + sec * msPerSecond + ms.

Definition MakeDate (day time : Z) : Z := day * msPerDay + time.

Definition TimeClip (time : Z) : Date :=
  if Z.abs time <=? maxTime then At time else Invalid.

Section Zone.

Variable LocalTZA : Z -> bool -> Z.

Definition LocalTime (t : Z) : Z := t + LocalTZA t true.
Definition UTC (t : Z) : Z := t - LocalTZA t false.

(** Whether a local time exists in the zone: read as UTC and back, it is
    itself.  A local time skipped by a clock change does not exist; the one
    an hour later is read in its place. *)
Definition existsLocally (t : Z) : bool := LocalTime (UTC t) =? t.

Definition getter (f : Z -> Z) (d : Date) : Js.num :=
  match d with
  | At t => Js.Num (f (LocalTime t))
  | Invalid => Js.NaN
  end.

Definition getHours : Date -> Js.num := getter HourFromTime.
Definition getMinutes : Date -> Js.num := getter MinFromTime.
Definition getSeconds : Date -> Js.num := getter SecFromTime.
Definition getMilliseconds : Date -> Js.num := getter msFromTime.

(** The calendar day of a date in the local zone, counted from the
    epoch. *)
Definition localDay : Date -> Js.num := getter Day.

(** [Date.prototype.setHours(hour)] on a copy of the date; the argument is
    cut to an integer, and a [NaN] or infinite one gives an Invalid Date. *)
Definition nativeSetHours (d : Date) (hour : Js.num) : Date :=
  match d, Js.truncated hour with
  | At t0, Some h =>
      let t := LocalTime t0 in
      TimeClip (UTC (MakeDate (Day t)
        (MakeTime h (MinFromTime t) (SecFromTime t) (msFromTime t))))
  | _, _ => Invalid
  end.

(** [Date.prototype.setMinutes(min)] on a copy of the date. *)
Definition nativeSetMinutes (d : Date) (min : Js.num) : Date :=
  match d, Js.truncated min with
  | At t0, Some m =>
      let t := LocalTime t0 in
      TimeClip (UTC (MakeDate (Day t)
        (MakeTime (HourFromTime t) m (SecFromTime t) (msFromTime t))))
  | _, _ => Invalid
  end.

(** date-fns [setHours(date, hours)] and [setMinutes(date, minutes)]:
    clone the date, call the native setter on the clone, return it. *)
Definition setHours (date : Date) (hours : Js.num) : Date :=
  nativeSetHours date hours.

Definition setMinutes (date : Date) (minutes : Js.num) : Date :=
  nativeSetMinutes date minutes.

(** date-fns [addDays(date, amount)]: [setDate(getDate() + amount)] on a
    clone, which moves the local day by [amount], keeps the local time
    within the day and reads the result back in the zone. *)
Definition addDays (date : Date) (amount : Z) : Date :=
  match date with
  | At t0 =>
      if amount =? 0 then At t0
      else
        let t := LocalTime t0 in
        TimeClip (UTC (MakeDate (Day t + amount) (TimeWithinDay t)))
  | Invalid => Invalid
  end.

End Zone.

End JsDate.

Import JsDate.

(** ** Records of the data model *)

Module Barbershop.
Record t : Type := { id : string; name : string }.
End Barbershop.

Module Service.
Record t : Type := { id : string; name : string }.
End Service.

(** A stored booking, with the columns the component and the store use. *)
Module Booking.
Record t : Type :=
  { id : string;
    userId : option string;
    serviceId : string;
    barbershopId : string;
    date : Date }.
End Booking.

(** The session of [useSession]: [data] may be absent, and so may its
    [user]; the [id] read through [(data.user as any).id] may be
    [undefined]. *)
Module User.
Record t : Type := { id : option string }.
End User.

Module Session.
Record t : Type := { user : option User.t }.
End Session.

(** The argument object of [saveBooking]. *)
Module SaveBookingParams.
Record t : Type :=
  { serviceId : string;
    barbershopId : string;
    date : Date;
    userId : option string }.
End SaveBookingParams.

(** Modelled from the spec: what the storage action may reject with
    ([SlotTaken], [Unavailable] and any other fault, section 7), the code
    of the action not being part of this file's source.  These are the
    values an [await] may throw; [RangeError] is what date-fns [format]
    throws on an Invalid Date. *)
Inductive Error : Type :=
| SlotTaken
| Unavailable
| Fault (message : string)
| RangeError (message : string).

(** The component's state: one field per [useState]. *)
Record State : Type :=
  { date : option Date;
    hour : option string;
    submitIsLoading : bool;
    sheetIsOpen : bool;
    dayBookings : list Booking.t }.

Definition initialState : State :=
  {| date := None; hour := None; submitIsLoading := false;
     sheetIsOpen := false; dayBookings := [] |}.

(** What the component does to the outside, in order. *)
Inductive Event : Type :=
| SaveBooking (params : SaveBookingParams.t) (thrown : option Error)
| GetDayBookings (barbershopId : string) (day : Date)
| Toast (title : string) (description : Date)
| ConsoleError (error : Error)
| SignIn (provider : string).

(** ** Control flow of a function body

    A computation runs over the world (component state, booking store, log
    of outside calls) and completes normally, by [return], or by throwing. *)

Inductive Completion (A : Type) : Type :=
| Normal (a : A)
| Return
| Throw (e : Error).
Arguments Normal {A} a.
Arguments Return {A}.
Arguments Throw {A} e.

Section Component.

Variable LocalTZA : Z -> bool -> Z.

(** The booking store behind the two server actions; the actions
    themselves are parameters. *)
Variable Store : Type.
Variable saveBooking : SaveBookingParams.t -> Store -> Store * option Error.
Variable getDayBookings : string -> Date -> Store -> list Booking.t.
Variable generateDayTimeList : Date -> list string.

(** Props and session. *)
Variable barbershop : Barbershop.t.
Variable service : Service.t.
Variable isAuthenticated : bool.
Variable data : option Session.t.

Record World : Type :=
  { ui : State; store : Store; log : list Event }.

Definition M (A : Type) : Type := World -> Completion A * World.

Definition ret {A : Type} (a : A) : M A := fun w => (Normal a, w).

Definition bind {A B : Type} (m : M A) (k : A -> M B) : M B :=
  fun w =>
    match m w with
    | (Normal a, w') => k a w'
    | (Return, w') => (Return, w')
    | (Throw e, w') => (Throw e, w')
    end.

Definition return_ {A : Type} : M A := fun w => (Return, w).
Definition throw {A : Type} (e : Error) : M A := fun w => (Throw e, w).

Notation "x <- m ;; k" := (bind m (fun x => k))
  (at level 61, m at next level, right associativity).
Notation "m ;; k" := (bind m (fun _ => k))
  (at level 61, right associativity).

(** [try { body } catch (error) { handler error } finally { final }]: the
    handler runs on a throw of the body, the final block always runs, and
    when it completes normally the completion of the body (or of the
    handler) stands. *)
Definition try_catch_finally
    (body : M unit) (handler : Error -> M unit) (final : M unit) : M unit :=
  fun w =>
    let (c1, w1) := body w in
    let (c2, w2) :=
      match c1 with
      | Throw e => handler e w1
      | _ => (c1, w1)
      end in
    let (c3, w3) := final w2 in
    match c3 with
    | Normal _ => (c2, w3)
    | _ => (c3, w3)
    end.

Definition modify_ui (f : State -> State) : M unit :=
  fun w => (Normal tt, {| ui := f (ui w); store := store w; log := log w |}).

Definition emit (e : Event) : M unit :=
  fun w => (Normal tt, {| ui := ui w; store := store w; log := log w ++ [e] |}).

Definition setDate (v : option Date) : M unit :=
  modify_ui (fun s =>
    {| date := v; hour := hour s; submitIsLoading := submitIsLoading s;
       sheetIsOpen := sheetIsOpen s; dayBookings := dayBookings s |}).

Definition setHour (v : option string) : M unit :=
  modify_ui (fun s =>
    {| date := date s; hour := v; submitIsLoading := submitIsLoading s;
       sheetIsOpen := sheetIsOpen s; dayBookings := dayBookings s |}).

Definition setSubmitIsLoading (v : bool) : M unit :=
  modify_ui (fun s =>
    {| date := date s; hour := hour s; submitIsLoading := v;
       sheetIsOpen := sheetIsOpen s; dayBookings := dayBookings s |}).

Definition setSheetIsOpen (v : bool) : M unit :=
  modify_ui (fun s =>
    {| date := date s; hour := hour s; submitIsLoading := submitIsLoading s;
       sheetIsOpen := v; dayBookings := dayBookings s |}).

Definition setDayBookings (v : list Booking.t) : M unit :=
  modify_ui (fun s =>
    {| date := date s; hour := hour s; submitIsLoading := submitIsLoading s;
       sheetIsOpen := sheetIsOpen s; dayBookings := v |}).

(** [await saveBooking(params)]: the action runs on the store; a rejection
    is thrown at the [await]. *)
Definition await_saveBooking (params : SaveBookingParams.t) : M unit :=
  fun w =>
    let (st, thrown) := saveBooking params (store w) in
    let w' := {| ui := ui w; store := st;
                 log := log w ++ [SaveBooking params thrown] |} in
    match thrown with
    | None => (Normal tt, w')
    | Some e => (Throw e, w')
    end.

(** [await getDayBookings(barbershopId, date)]. *)
Definition await_getDayBookings (barbershopId : string) (day : Date)
  : M (list Booking.t) :=
  fun w =>
    (Normal (getDayBookings barbershopId day (store w)),
     {| ui := ui w; store := store w;
        log := log w ++ [GetDayBookings barbershopId day] |}).

(** date-fns [format]: throws on an Invalid Date; the text it renders is
    kept as the date it renders. *)
Definition format (d : Date) : M Date :=
  match d with
  | Invalid => throw (RangeError "Invalid time value")
  | At _ => ret d
  end.

Definition toast (title : string) (description : Date) : M unit :=
  emit (Toast title description).

Definition console_error (error : Error) : M unit :=
  emit (ConsoleError error).

(** [data?.user] *)
Definition data_user : option User.t :=
  match data with
  | Some s => Session.user s
  | None => None
  end.

(** *** Handlers *)

Definition handleDateClick (value : option Date) : M unit :=
  setDate value ;;
  setHour None.

Definition handleHourClick (value : string) : M unit :=
  setHour (Some value).

Definition handleBookingClick : M unit :=
  if negb isAuthenticated then emit (SignIn "google") ;; return_
  else ret tt.

(** The handler reads [hour] and [date] of the render it was created in.
    After the guard the three values are known to be present; the last
    branch of the [match] is the one the guard has excluded. *)
Definition handleBookingSubmit : M unit :=
  fun w0 =>
  let render := ui w0 in
  (setSubmitIsLoading true ;;
   try_catch_finally
     (if negb (Js.truthy_string (hour render))
         || negb (Js.truthy_ref (date render))
         || negb (Js.truthy_ref data_user)
      then return_
      else
        match hour render, date render, data_user with
        | Some hour, Some date, Some user =>
            let dateHour := Js.Number (Js.index (Js.split ":" hour) 0) in
            let dateMinutes := Js.Number (Js.index (Js.split ":" hour) 1) in
            let newDate :=
              setMinutes LocalTZA (setHours LocalTZA date dateHour)
                dateMinutes in
            await_saveBooking
              {| SaveBookingParams.serviceId := Service.id service;
                 SaveBookingParams.barbershopId := Barbershop.id barbershop;
                 SaveBookingParams.date := newDate;
                 SaveBookingParams.userId := User.id user |} ;;
            setSheetIsOpen false ;;
            setHour None ;;
            setDate None ;;
            description <- format newDate ;;
            toast "Reserva realizada com sucesso!" description
        | _, _, _ => return_
        end)
     (fun error => console_error error)
     (setSubmitIsLoading false)) w0.

(** *** Derived values of a render *)

(** The [timeList] memo. *)
Definition timeList (s : State) : list string :=
  match date s with
  | None => []
  | Some date =>
      filter
        (fun time =>
           let timeHour := Js.Number (Js.index (Js.split ":" time) 0) in
           let timeMinutes := Js.Number (Js.index (Js.split ":" time) 1) in
           let booking :=
             find
               (fun booking =>
                  let bookingHour := getHours LocalTZA (Booking.date booking) in
                  let bookingMinutes :=
                    getMinutes LocalTZA (Booking.date booking) in
                  Js.strict_eq bookingHour timeHour
                  && Js.strict_eq bookingMinutes timeMinutes)
               (dayBookings s) in
           if negb (Js.truthy_ref booking) then true else false)
        (generateDayTimeList date)
  end.

(** The effect on [date] and [barbershop.id]. *)
Definition refreshAvailableHours (date : Date) : M unit :=
  _dayBookings <- await_getDayBookings (Barbershop.id barbershop) date ;;
  setDayBookings _dayBookings.

Definition dateEffect : M unit :=
  fun w =>
    match date (ui w) with
    | None => return_ w
    | Some date => refreshAvailableHours date w
    end.

(** [fromDate] of the calendar, computed from the clock at render. *)
Definition calendarFromDate (now : Date) : Date := addDays LocalTZA now 1.

(** [disabled] of the confirm button. *)
Definition submitDisabled (s : State) : bool :=
  negb (Js.truthy_string (hour s))
  || negb (Js.truthy_ref (date s))
  || submitIsLoading s.

(** A click on the confirm button: a disabled button does not call its
    [onClick]. *)
Definition clickSubmit : M unit :=
  fun w =>
    if submitDisabled (ui w) then (Normal tt, w)
    else handleBookingSubmit w.

End Component.

Arguments ui {Store} w.
Arguments store {Store} w.
Arguments log {Store} w.

(** ** The storage actions

    The bodies of [saveBooking] and [getDayBookings] are not part of this
    file's source; the Booking Store of section 4.3 of the spec stands for
    them. *)

Module BookingStore.

Section Store.

Variable LocalTZA : Z -> bool -> Z.

(** The identifier the store gives to a new row. *)
Variable newId : list Booking.t -> string.

Definition Store : Type := list Booking.t.

(** Business, calendar day, hour and minute of a date-time; an Invalid
    Date has none. *)
Definition slotKey (barbershopId : string) (d : Date)
  : option (string * Z * Z * Z) :=
  match d with
  | At t =>
      let l := LocalTime LocalTZA t in
      Some (barbershopId, Day l, HourFromTime l, MinFromTime l)
  | Invalid => None
  end.

Definition key_eqb (a b : string * Z * Z * Z) : bool :=
  match a, b with
  | (s1, d1, h1, m1), (s2, d2, h2, m2) =>
      String.eqb s1 s2 && Z.eqb d1 d2 && Z.eqb h1 h2 && Z.eqb m1 m2
  end.

Definition bookingKey (b : Booking.t) : option (string * Z * Z * Z) :=
  slotKey (Booking.barbershopId b) (Booking.date b).

Definition paramsKey (p : SaveBookingParams.t) : option (string * Z * Z * Z) :=
  slotKey (SaveBookingParams.barbershopId p) (SaveBookingParams.date p).

(** Two date-times collide when both have a key and the keys are equal. *)
Definition collide (a b : option (string * Z * Z * Z)) : bool :=
  match a, b with
  | Some x, Some y => key_eqb x y
  | _, _ => false
  end.

(** Modelled from the spec: [createBooking], the storage side of
    [saveBooking], whose body is missing.  In one indivisible step it
    enforces the uniqueness invariant of section 3 (for a business and a
    calendar day no two bookings share a time of day): a candidate that
    collides with a stored booking is rejected with the conflict signal,
    any other candidate is persisted. *)
Definition createBooking (candidate : SaveBookingParams.t) (st : Store)
  : Store * option Error :=
  if existsb (fun b => collide (paramsKey candidate) (bookingKey b)) st
  then (st, Some SlotTaken)
  else
    (st ++ [ {| Booking.id := newId st;
                Booking.userId := SaveBookingParams.userId candidate;
                Booking.serviceId := SaveBookingParams.serviceId candidate;
                Booking.barbershopId :=
                  SaveBookingParams.barbershopId candidate;
                Booking.date := SaveBookingParams.date candidate |} ],
     None).

(** Modelled from the spec: [listBookingsForDay], the storage side of
    [getDayBookings], whose body is missing: the bookings of the business
    whose date falls on the calendar day. *)
Definition listBookingsForDay (barbershopId : string) (day : Date) (st : Store)
  : list Booking.t :=
  filter
    (fun b =>
       String.eqb (Booking.barbershopId b) barbershopId
       && Js.strict_eq (localDay LocalTZA (Booking.date b))
                       (localDay LocalTZA day))
    st.

(** The uniqueness invariant of the stored bookings. *)
Fixpoint uniqueSlots (st : Store) : bool :=
  match st with
  | [] => true
  | b :: rest =>
      negb (existsb (fun b' => collide (bookingKey b) (bookingKey b')) rest)
      && uniqueSlots rest
  end.

End Store.

End BookingStore.

(** ** Reserve calls racing for the store

    Several clients, each with its own props, session and render, submit
    against one shared store.  A call touches the store once, at its
    [await]; what it does before and after is local to the client.  The
    schedule is arbitrary: at each step any client takes its next step. *)

Module Race.

Section Clients.

Variable LocalTZA : Z -> bool -> Z.
Variable newId : list Booking.t -> string.

Record Call : Type :=
  { barbershop : Barbershop.t;
    service : Service.t;
    data : option Session.t;
    render : State }.

(** [handleBookingSubmit] as the client sees it, the answer of the storage
    action being [thrown]. *)
Definition localRun (c : Call) (thrown : option Error) : World unit :=
  snd (handleBookingSubmit LocalTZA unit (fun _ _ => (tt, thrown))
         (barbershop c) (service c) (data c)
         {| ui := render c; store := tt; log := [] |}).

(** The successful [saveBooking] call of a log, if it has one. *)
Fixpoint confirmedIn (lg : list Event) : option SaveBookingParams.t :=
  match lg with
  | SaveBooking p None :: _ => Some p
  | _ :: rest => confirmedIn rest
  | [] => None
  end.

(** The request the call sends, if its guard lets it through. *)
Definition submitRequest (c : Call) : option SaveBookingParams.t :=
  confirmedIn (log (localRun c None)).

Inductive Phase : Type :=
| Idle
| Awaiting
| Settled (thrown : option Error)
| Finished (w : World unit).

Record Client : Type := { call : Call; phase : Phase }.

Record System : Type :=
  { bookings : BookingStore.Store; clients : list Client }.

Inductive clientStep
  : BookingStore.Store -> Client -> BookingStore.Store -> Client -> Prop :=
| invoke_stop c st :
    submitRequest c = None ->
    clientStep st {| call := c; phase := Idle |}
               st {| call := c; phase := Finished (localRun c None) |}
| invoke_send c st p :
    submitRequest c = Some p ->
    clientStep st {| call := c; phase := Idle |}
               st {| call := c; phase := Awaiting |}
| commit c st p st' thrown :
    submitRequest c = Some p ->
    BookingStore.createBooking LocalTZA newId p st = (st', thrown) ->
    clientStep st {| call := c; phase := Awaiting |}
               st' {| call := c; phase := Settled thrown |}
| resume c st thrown :
    clientStep st {| call := c; phase := Settled thrown |}
               st {| call := c; phase := Finished (localRun c thrown) |}.

Inductive step : System -> System -> Prop :=
| step_client st st' before c c' after :
    clientStep st c st' c' ->
    step {| bookings := st; clients := before ++ c :: after |}
         {| bookings := st'; clients := before ++ c' :: after |}.

Inductive steps : System -> System -> Prop :=
| steps_refl sys : steps sys sys
| steps_snoc sys1 sys2 sys3 : steps sys1 sys2 -> step sys2 sys3 -> steps sys1 sys3.

Definition start (st : BookingStore.Store) (calls : list Call) : System :=
  {| bookings := st;
     clients := map (fun c => {| call := c; phase := Idle |}) calls |}.

(** The booking a client has had confirmed: the storage action resolved,
    whether or not the handler has resumed yet. *)
Definition confirmed (cl : Client) : option SaveBookingParams.t :=
  match phase cl with
  | Settled None => submitRequest (call cl)
  | Finished w => confirmedIn (log w)
  | _ => None
  end.

(** Rejected with the conflict signal. *)
Definition slotTaken (cl : Client) : bool :=
  match phase cl with
  | Settled (Some SlotTaken) => true
  | Finished w =>
      existsb (fun e => match e with
                        | SaveBooking _ (Some SlotTaken) => true
                        | _ => false
                        end) (log w)
  | _ => false
  end.

(** How many stored bookings, and how many confirmed clients, sit on the
    slot [k]. *)
Definition storeCount (k : string * Z * Z * Z) (st : BookingStore.Store) : nat :=
  List.length
    (filter (fun b => BookingStore.collide (Some k)
                        (BookingStore.bookingKey LocalTZA b)) st).

Definition onSlot (k : string * Z * Z * Z) (cl : Client) : bool :=
  match confirmed cl with
  | Some p => BookingStore.collide (Some k) (BookingStore.paramsKey LocalTZA p)
  | None => false
  end.

Definition confirmedCount (k : string * Z * Z * Z) (cls : list Client) : nat :=
  List.length (filter (onSlot k) cls).

(** What a schedule keeps true. *)
Definition consistent (sys : System) : Prop :=
  BookingStore.uniqueSlots LocalTZA (bookings sys) = true
  /\ forall k, (confirmedCount k (clients sys) <= storeCount k (bookings sys))%nat.

End Clients.

End Race.

(** ** Reading a log and a render *)

Definition isSaveBooking (e : Event) : bool :=
  match e with SaveBooking _ _ => true | _ => false end.

Definition isGetDayBookings (e : Event) : bool :=
  match e with GetDayBookings _ _ => true | _ => false end.

(** The state with [submitIsLoading] reset and nothing else touched. *)
Definition settled (s : State) : State :=
  {| date := date s; hour := hour s; submitIsLoading := false;
     sheetIsOpen := sheetIsOpen s; dayBookings := dayBookings s |}.

(** The state after a successful submit. *)
Definition cleared (s : State) : State :=
  {| date := None; hour := None; submitIsLoading := false;
     sheetIsOpen := false; dayBookings := dayBookings s |}.

(** The guard at the top of the [try] block. *)
Definition guardStops (s : State) (data : option Session.t) : bool :=
  negb (Js.truthy_string (hour s))
  || negb (Js.truthy_ref (date s))
  || negb (Js.truthy_ref (data_user data)).

(** The argument of [saveBooking] for a chosen label, day and user. *)
Definition requestOf (LocalTZA : Z -> bool -> Z) (barbershop : Barbershop.t)
    (service : Service.t) (hour : string) (date : Date) (user : User.t)
  : SaveBookingParams.t :=
  {| SaveBookingParams.serviceId := Service.id service;
     SaveBookingParams.barbershopId := Barbershop.id barbershop;
     SaveBookingParams.date :=
       setMinutes LocalTZA
         (setHours LocalTZA date (Js.Number (Js.index (Js.split ":" hour) 0)))
         (Js.Number (Js.index (Js.split ":" hour) 1));
     SaveBookingParams.userId := User.id user |}.

(** Whether a run let its caller or its user know of a failure: the
    promise rejected, or something was logged as an error. *)
Definition isConsoleError (e : Event) : bool :=
  match e with ConsoleError _ => true | _ => false end.

Definition signalsFailure (c : Completion unit) (lg : list Event) : bool :=
  match c with
  | Throw _ => true
  | _ => existsb isConsoleError lg
  end.

(** ** Times of day

    The time of day of a slot label and of a booking, as [timeList] reads
    them: the two numbers around the colon, and the local hours and minutes
    of the booking's date. *)

Definition slotTimeOfDay (time : string) : Js.num * Js.num :=
  (Js.Number (Js.index (Js.split ":" time) 0),
   Js.Number (Js.index (Js.split ":" time) 1)).

Definition bookingTimeOfDay (LocalTZA : Z -> bool -> Z) (booking : Booking.t)
  : Js.num * Js.num :=
  (getHours LocalTZA (Booking.date booking),
   getMinutes LocalTZA (Booking.date booking)).

(** Equal on hour and on minute. *)
Definition sameTimeOfDay (a b : Js.num * Js.num) : bool :=
  Js.strict_eq (fst a) (fst b) && Js.strict_eq (snd a) (snd b).

(** [a < b] on numbers: false when either is [NaN]. *)
Definition num_lt (a b : Js.num) : bool := Js.lt a b.

(** Earlier in the day: by hour, then by minute. *)
Definition timeOfDayLt (a b : Js.num * Js.num) : bool :=
  num_lt (fst a) (fst b)
  || (Js.strict_eq (fst a) (fst b) && num_lt (snd a) (snd b)).

Definition labelLt (a b : string) : Prop :=
  timeOfDayLt (slotTimeOfDay a) (slotTimeOfDay b) = true.

(** A slot sequence strictly ascending by time of day. *)
Fixpoint ascending (slots : list string) : bool :=
  match slots with
  | a :: (b :: _) as rest =>
      timeOfDayLt (slotTimeOfDay a) (slotTimeOfDay b) && ascending rest
  | _ => true
  end.

(** The Availability Filter in the words of the spec (section 4.2), to
    compare [timeList] with: a candidate slot is excluded if there exists a
    booking whose time of day equals the slot's, on hour and minute; the
    others are kept, in their order. *)
Definition filterAvailable (LocalTZA : Z -> bool -> Z) (slots : list string)
    (existingBookings : list Booking.t) : list string :=
  filter
    (fun slot =>
       negb (existsb
               (fun booking =>
                  sameTimeOfDay (bookingTimeOfDay LocalTZA booking)
                                (slotTimeOfDay slot))
               existingBookings))
    slots.

(** ** A concrete shop, client and day

    The zone is America/Sao_Paulo as it has been since 2019, three hours
    behind UTC all year; [day] is 10 November 2023, 00:00 local time. *)

Module Sample.

Definition zone (t : Z) (isUTC : bool) : Z := -10800000.

(** America/New_York over 2024: five hours behind UTC, four from 10 March
    07:00 UTC to 3 November 06:00 UTC.  The local hour from 02:00 on
    10 March is skipped and the local hour from 01:00 on 3 November is
    repeated; both are read with the offset before the change. *)
Definition newYork (t : Z) (isUTC : bool) : Z :=
  if isUTC
  then if (1710054000000 <=? t) && (t <? 1730613600000)
       then -14400000 else -18000000
  else if (1710039600000 <=? t) && (t <? 1730599200000)
       then -14400000 else -18000000.
Definition shop : Barbershop.t :=
  {| Barbershop.id := "shop-1"; Barbershop.name := "Vintage Barber" |}.
Definition cut : Service.t :=
  {| Service.id := "service-1"; Service.name := "Corte de Cabelo" |}.
Definition ana : User.t := {| User.id := Some "user-1" |}.
Definition session : option Session.t :=
  Some {| Session.user := Some ana |}.
Definition anonymous : option Session.t :=
  Some {| Session.user := None |}.
Definition newId (st : list Booking.t) : string := "booking".

Definition day : Date := At 1699585200000.

(** A booking of another user on [day] at 09:00 local time. *)
Definition taken0900 : Booking.t :=
  {| Booking.id := "booking-0";
     Booking.userId := Some "user-2";
     Booking.serviceId := "service-1";
     Booking.barbershopId := "shop-1";
     Booking.date := At 1699617600000 |}.

(** The sheet is open, [day] and 09:00 are selected; the bookings of the day
    were fetched before anyone had booked. *)
Definition picked0900 : State :=
  {| date := Some day; hour := Some "09:00"; submitIsLoading := false;
     sheetIsOpen := true; dayBookings := [] |}.

Definition noHour : State :=
  {| date := Some day; hour := None; submitIsLoading := false;
     sheetIsOpen := true; dayBookings := [] |}.

Definition world (s : State) (st : BookingStore.Store)
  : World BookingStore.Store :=
  {| ui := s; store := st; log := [] |}.

(** The handler over the store of [BookingStore]. *)
Definition submit (data : option Session.t)
  : M BookingStore.Store unit :=
  handleBookingSubmit zone BookingStore.Store
    (BookingStore.createBooking zone newId) shop cut data.

(** A storage action that fails with a fault of its own. *)
Definition failing (p : SaveBookingParams.t) (st : BookingStore.Store)
  : BookingStore.Store * option Error :=
  (st, Some (Fault "connection lost")).

(** Modelled from the spec: the slot sequence of scenario 1 (open from 09:00
    to 12:00, one slot per hour), standing for [generateDayTimeList], whose
    body is not part of this file's source. *)
Definition hours (d : Date) : list string := ["09:00"; "10:00"; "11:00"].

(** Two clients with the same selection. *)
Definition caller : Race.Call :=
  {| Race.barbershop := shop; Race.service := cut; Race.data := session;
     Race.render := picked0900 |}.

Definition request0900 : SaveBookingParams.t :=
  {| SaveBookingParams.serviceId := "service-1";
     SaveBookingParams.barbershopId := "shop-1";
     SaveBookingParams.date := At 1699617600000;
     SaveBookingParams.userId := Some "user-1" |}.

End Sample.

(** ** What a render shows of the slots *)

Section Render.

Variable LocalTZA : Z -> bool -> Z.
Variable generateDayTimeList : Date -> list string.

(** [hour === time] *)
Definition hourIs (s : State) (time : string) : bool :=
  match hour s with
  | Some h => String.eqb h time
  | None => false
  end.

(** The row of slot buttons, rendered when a day is selected: one button
    per entry of [timeList], keyed by its label, in the default variant when
    its label is the selected hour and outlined otherwise. *)
Definition slotButtons (s : State) : list (string * bool) :=
  if Js.truthy_ref (date s)
  then map (fun time => (time, hourIs s time))
           (timeList LocalTZA generateDayTimeList s)
  else [].

(** Whether the render shows the text that no time is available:
    [date && !timeList.length]. *)
Definition showsNoSlotsMessage (s : State) : bool :=
  Js.truthy_ref (date s)
  && Nat.eqb (List.length (timeList LocalTZA generateDayTimeList s)) 0.

End Render.

(** Whether a character occurs in a string. *)
Fixpoint occurs (c : ascii) (s : string) : bool :=
  match s with
  | EmptyString => false
  | String c' rest => Ascii.eqb c' c || occurs c rest
  end.

(** * Properties *)

Arguments Js.index : simpl never.
Arguments Js.split : simpl never.
Arguments Js.Number : simpl never.
Arguments setHours : simpl never.
Arguments setMinutes : simpl never.

Example split_label : Js.split ":" "09:30" = ["09"; "30"].
Proof. reflexivity. Qed.

Example split_no_colon : Js.index (Js.split ":" "0930") 1 = None.
Proof. reflexivity. Qed.

Example Number_literals :
  Js.Number (Some "0x9") = Js.Num 9
  /\ Js.Number (Some "1e1") = Js.Num 10
  /\ Js.Number (Some "9.0") = Js.Num 9
  /\ Js.Number (Some "30.5") = Js.Frac 61 1
  /\ Js.Number (Some (String (ascii_of_nat 160) "9")) = Js.Num 9
  /\ Js.Number (Some "0.1") = Js.Frac 3602879701896397 55
  /\ Js.Number (Some "9007199254740993") = Js.Num 9007199254740992
  /\ Js.Number (Some "-Infinity") = Js.Infinity true
  /\ Js.Number (Some "1e309") = Js.Infinity false
  /\ Js.Number (Some "+0x9") = Js.NaN
  /\ Js.Number (Some "1e") = Js.NaN.
Proof. repeat split; vm_compute; reflexivity. Qed.

(** A fractional hour is cut to its integer, as the setters do. *)
Example setHours_fraction :
  setHours Sample.zone Sample.day (Js.Number (Some "9.5"))
  = setHours Sample.zone Sample.day (Js.Num 9).
Proof. vm_compute. reflexivity. Qed.

Example Number_label :
  Js.Number (Js.index (Js.split ":" "09:30") 0) = Js.Num 9
  /\ Js.Number (Js.index (Js.split ":" "09:30") 1) = Js.Num 30
  /\ Js.Number (Some " 7 ") = Js.Num 7
  /\ Js.Number (Some "") = Js.Num 0
  /\ Js.Number (Some "ab") = Js.NaN
  /\ Js.Number None = Js.NaN.
Proof. repeat split; reflexivity. Qed.

(** ** The submit handler, case by case *)

Section Submit.

Variable LocalTZA : Z -> bool -> Z.
Variable Store : Type.
Variable saveBooking : SaveBookingParams.t -> Store -> Store * option Error.
Variable barbershop : Barbershop.t.
Variable service : Service.t.
Variable data : option Session.t.

Local Abbreviation submit :=
  (handleBookingSubmit LocalTZA Store saveBooking barbershop service data).

Lemma submit_guard (w : World Store) :
  guardStops (ui w) data = true ->
  submit w = (Return, {| ui := settled (ui w); store := store w; log := log w |}).
Proof.
  destruct w as [[d h l o bs] st lg]; unfold guardStops, handleBookingSubmit.
  cbn. intros G. unfold data_user in *.
  unfold bind, setSubmitIsLoading, modify_ui, try_catch_finally; cbn.
  rewrite G. reflexivity.
Qed.

Lemma guard_passes (s : State) :
  guardStops s data = false ->
  exists h d u,
    hour s = Some h /\ h <> EmptyString /\ date s = Some d /\ data_user data = Some u.
Proof.
  unfold guardStops. destruct s as [d h l o bs]; cbn.
  destruct h as [[|c h]|]; cbn; try discriminate.
  destruct d as [d|]; cbn; try discriminate.
  destruct (data_user data) as [u|]; cbn; try discriminate.
  intros _. exists (String c h), d, u. repeat split; congruence.
Qed.

(** Past the guard the handler calls [saveBooking] once and then either
    logs what was thrown or closes the sheet, clears the selection and
    shows the toast. *)
Lemma submit_sent (w : World Store) h d u st thrown :
  hour (ui w) = Some h -> h <> EmptyString ->
  date (ui w) = Some d -> data_user data = Some u ->
  saveBooking (requestOf LocalTZA barbershop service h d u) (store w)
    = (st, thrown) ->
  submit w =
    (Normal tt,
     {| ui := match thrown with
              | None => cleared (ui w)
              | Some _ => settled (ui w)
              end;
        store := st;
        log := log w
               ++ SaveBooking (requestOf LocalTZA barbershop service h d u) thrown
               :: match thrown with
                  | Some e => [ConsoleError e]
                  | None =>
                      match SaveBookingParams.date
                              (requestOf LocalTZA barbershop service h d u) with
                      | At t => [Toast "Reserva realizada com sucesso!" (At t)]
                      | Invalid => [ConsoleError (RangeError "Invalid time value")]
                      end
                  end |}).
Proof.
  destruct w as [[d0 h0 l o bs] st0 lg]; cbn. intros -> Hh -> Hu Hs.
  unfold handleBookingSubmit, requestOf in *.
  cbv beta iota delta [bind setSubmitIsLoading modify_ui try_catch_finally
    await_saveBooking ui store log hour date submitIsLoading sheetIsOpen
    dayBookings return_ ret].
  destruct h as [|c h]; [congruence|].
  cbv beta iota delta [Js.truthy_string Js.truthy_ref negb orb]. rewrite Hu.
  cbv beta iota. rewrite Hs.
  destruct thrown as [e|].
  - cbn. rewrite <- app_assoc. reflexivity.
  - cbn [SaveBookingParams.date].
    destruct (setMinutes LocalTZA _ _) as [|t];
      cbn; rewrite <- app_assoc; reflexivity.
Qed.

(** Every run of the handler is one of the two cases above. *)
Lemma submit_cases (w : World Store) :
  (guardStops (ui w) data = true
   /\ submit w = (Return, {| ui := settled (ui w); store := store w; log := log w |}))
  \/ (exists h d u,
        hour (ui w) = Some h /\ h <> EmptyString /\ date (ui w) = Some d
        /\ data_user data = Some u /\ guardStops (ui w) data = false).
Proof.
  destruct (guardStops (ui w) data) eqn:G.
  - left. split; [reflexivity | now apply submit_guard].
  - right. destruct (guard_passes _ G) as (h & d & u & H1 & H2 & H3 & H4).
    exists h, d, u. repeat split; assumption.
Qed.

Lemma guardStops_iff (s : State) :
  guardStops s data = true
  <-> Js.truthy_string (hour s) = false \/ date s = None \/ data_user data = None.
Proof.
  unfold guardStops. destruct (hour s) as [[|c h]|], (date s), (data_user data);
    cbn; intuition congruence.
Qed.

(** C4 (amended).  When the time of day, the day or the session user is
    missing, the submit handler stops at its guard by a bare [return]: the
    storage action is not called, nothing is logged or shown, the selection
    is left as it was and [submitIsLoading] ends [false].  No rejection is
    produced. *)
Theorem submit_missing_input_is_silent (w : World Store) :
  Js.truthy_string (hour (ui w)) = false \/ date (ui w) = None
    \/ data_user data = None ->
  submit w = (Return, {| ui := settled (ui w); store := store w; log := log w |})
  /\ signalsFailure (fst (submit w)) (log (snd (submit w)))
     = existsb isConsoleError (log w).
Proof.
  intros H. apply guardStops_iff in H.
  rewrite (submit_guard w H). split; reflexivity.
Qed.

(** C7 (amended).  When the storage action fails, with [SlotTaken] or any
    other fault, the handler catches the fault, passes it unchanged to
    [console.error] and completes normally: its caller gets no failure.  The
    sheet stays open, the selection is kept, no toast is shown. *)
Theorem storage_fault_is_logged_not_surfaced (w : World Store) h d u st e :
  hour (ui w) = Some h -> h <> EmptyString ->
  date (ui w) = Some d -> data_user data = Some u ->
  saveBooking (requestOf LocalTZA barbershop service h d u) (store w)
    = (st, Some e) ->
  submit w =
    (Normal tt,
     {| ui := settled (ui w); store := st;
        log := log w
               ++ [SaveBooking (requestOf LocalTZA barbershop service h d u) (Some e);
                   ConsoleError e] |}).
Proof.
  intros Hh Hne Hd Hu Hs. now rewrite (submit_sent w h d u st (Some e)).
Qed.

(** C8 (amended).  After an attempt that did not commit (the guard stopped
    it, or the storage action failed with any fault, [SlotTaken] included)
    the selected day and time of day are unchanged, and the bookings of the
    day are not fetched again. *)
Theorem failed_attempt_keeps_selection (w : World Store) :
  guardStops (ui w) data = true
  \/ (exists h d u st e,
        hour (ui w) = Some h /\ h <> EmptyString /\ date (ui w) = Some d
        /\ data_user data = Some u
        /\ saveBooking (requestOf LocalTZA barbershop service h d u) (store w)
           = (st, Some e)) ->
  date (ui (snd (submit w))) = date (ui w)
  /\ hour (ui (snd (submit w))) = hour (ui w)
  /\ filter isGetDayBookings (log (snd (submit w)))
     = filter isGetDayBookings (log w).
Proof.
  intros [G | (h & d & u & st & e & Hh & Hne & Hd & Hu & Hs)].
  - rewrite (submit_guard w G). cbn. auto.
  - rewrite (submit_sent w h d u st (Some e) Hh Hne Hd Hu Hs). cbn.
    repeat split. rewrite filter_app. cbn. now rewrite app_nil_r.
Qed.

(** C3 (amended).  Once the time of day, the day and the user are present,
    the handler calls the storage action exactly once, with the request
    built from the selection, whatever the store holds and whatever
    [dayBookings] the render has: it neither fetches the bookings of the day
    again nor filters the slots again before the call. *)
Theorem submit_commits_without_recheck (w : World Store) h d u st thrown :
  hour (ui w) = Some h -> h <> EmptyString ->
  date (ui w) = Some d -> data_user data = Some u ->
  saveBooking (requestOf LocalTZA barbershop service h d u) (store w)
    = (st, thrown) ->
  exists rest,
    log (snd (submit w))
      = log w ++ SaveBooking (requestOf LocalTZA barbershop service h d u) thrown
                 :: rest
    /\ existsb isSaveBooking rest = false
    /\ existsb isGetDayBookings
         (SaveBooking (requestOf LocalTZA barbershop service h d u) thrown :: rest)
       = false
    /\ store (snd (submit w)) = st.
Proof.
  intros Hh Hne Hd Hu Hs. rewrite (submit_sent w h d u st thrown Hh Hne Hd Hu Hs).
  cbn [snd log store]. eexists. split; [reflexivity|].
  destruct thrown as [e|]; [now cbn|].
  destruct (SaveBookingParams.date _); now cbn.
Qed.

(** C9 (amended).  The storage action is never called with the time of day,
    the day or the session user missing: the guard in the handler returns
    before the call exactly when one of the three is missing.  The confirm
    button is disabled exactly when the time of day or the day is missing or
    a submit is under way; it does not look at the user. *)
Theorem saveBooking_needs_selection_and_user :
  (forall (w : World Store) p thrown,
      In (SaveBooking p thrown) (log (snd (submit w))) ->
      In (SaveBooking p thrown) (log w)
      \/ exists h d u,
           hour (ui w) = Some h /\ h <> EmptyString /\ date (ui w) = Some d
           /\ data_user data = Some u
           /\ p = requestOf LocalTZA barbershop service h d u)
  /\ (forall (w : World Store) p thrown,
        In (SaveBooking p thrown)
           (log (snd (clickSubmit LocalTZA Store saveBooking barbershop service
                        data w))) ->
        In (SaveBooking p thrown) (log w)
        \/ submitIsLoading (ui w) = false
           /\ exists h d u,
                hour (ui w) = Some h /\ h <> EmptyString /\ date (ui w) = Some d
                /\ data_user data = Some u
                /\ p = requestOf LocalTZA barbershop service h d u)
  /\ (forall s : State,
        guardStops s data = true
        <-> Js.truthy_string (hour s) = false \/ date s = None
            \/ data_user data = None)
  /\ (forall s : State,
        submitDisabled s = true
        <-> Js.truthy_string (hour s) = false \/ date s = None
            \/ submitIsLoading s = true).
Proof.
  assert (A : forall (w : World Store) p thrown,
      In (SaveBooking p thrown) (log (snd (submit w))) ->
      In (SaveBooking p thrown) (log w)
      \/ exists h d u,
           hour (ui w) = Some h /\ h <> EmptyString /\ date (ui w) = Some d
           /\ data_user data = Some u
           /\ p = requestOf LocalTZA barbershop service h d u).
  { intros w p thrown HIn.
    destruct (submit_cases w) as [[G E] | (h & d & u & Hh & Hne & Hd & Hu & G)].
    - rewrite E in HIn. now left.
    - destruct (saveBooking (requestOf LocalTZA barbershop service h d u) (store w))
        as [st r] eqn:Hs.
      rewrite (submit_sent w h d u st r Hh Hne Hd Hu Hs) in HIn. cbn in HIn.
      apply in_app_or in HIn. destruct HIn as [HIn | [HIn | HIn]]; [now left | |].
      + right. exists h, d, u. injection HIn as <- _. auto.
      + exfalso. destruct r as [e|].
        * destruct HIn as [HIn | []]; discriminate.
        * destruct (setMinutes LocalTZA _ _); destruct HIn as [HIn | []];
            discriminate. }
  split; [exact A|]. split; [|split].
  - intros w p thrown. unfold clickSubmit.
    destruct (submitDisabled (ui w)) eqn:D; cbn [snd log]; [now left|].
    intros HIn. destruct (A w p thrown HIn) as [HIn' | Hex]; [now left|].
    right. split; [|exact Hex].
    unfold submitDisabled in D. apply orb_false_elim in D. tauto.
  - exact guardStops_iff.
  - intros s. unfold submitDisabled.
    destruct (hour s) as [[|c h]|], (date s), (submitIsLoading s);
      cbn; intuition congruence.
Qed.

End Submit.

(** ** The handler on the sample client *)

Example submit_confirms_free_slot :
  Sample.submit Sample.session (Sample.world Sample.picked0900 [])
  = (Normal tt,
     {| ui := cleared Sample.picked0900;
        store :=
          [ {| Booking.id := "booking";
               Booking.userId := Some "user-1";
               Booking.serviceId := "service-1";
               Booking.barbershopId := "shop-1";
               Booking.date := At 1699617600000 |} ];
        log := [SaveBooking Sample.request0900 None;
                Toast "Reserva realizada com sucesso!" (At 1699617600000)] |}).
Proof. vm_compute. reflexivity. Qed.

(** C4, as stated, fails: with no time of day selected the call ends by a
    bare [return] and leaves the world as it was; no rejection of any kind
    is produced. *)
Lemma submit_without_hour_rejects_nothing :
  Sample.submit Sample.session (Sample.world Sample.noHour [])
  = (Return, Sample.world Sample.noHour [])
  /\ signalsFailure
       (fst (Sample.submit Sample.session (Sample.world Sample.noHour [])))
       (log (snd (Sample.submit Sample.session (Sample.world Sample.noHour []))))
     = false.
Proof. split; vm_compute; reflexivity. Qed.

Lemma submit_missing_input_is_silent_witness :
  Js.truthy_string (hour (ui (Sample.world Sample.noHour []))) = false
  /\ Sample.submit Sample.session (Sample.world Sample.noHour [])
     = (Return,
        {| ui := settled Sample.noHour; store := []; log := [] |}).
Proof.
  split; [reflexivity|].
  apply (submit_missing_input_is_silent Sample.zone BookingStore.Store
           (BookingStore.createBooking Sample.zone Sample.newId)
           Sample.shop Sample.cut Sample.session
           (Sample.world Sample.noHour [])).
  left. reflexivity.
Defined.

(** C7, as stated, fails: the storage action throws a fault that is not
    [SlotTaken]; the call completes normally, exactly as a confirmed one
    does, and the fault only reaches [console.error]. *)
Lemma storage_fault_is_swallowed :
  handleBookingSubmit Sample.zone BookingStore.Store Sample.failing
    Sample.shop Sample.cut Sample.session (Sample.world Sample.picked0900 [])
  = (Normal tt,
     {| ui := Sample.picked0900; store := [];
        log := [SaveBooking Sample.request0900 (Some (Fault "connection lost"));
                ConsoleError (Fault "connection lost")] |})
  /\ fst (handleBookingSubmit Sample.zone BookingStore.Store Sample.failing
            Sample.shop Sample.cut Sample.session
            (Sample.world Sample.picked0900 []))
     = fst (Sample.submit Sample.session (Sample.world Sample.picked0900 [])).
Proof. split; vm_compute; reflexivity. Qed.

Lemma storage_fault_is_logged_not_surfaced_witness :
  handleBookingSubmit Sample.zone BookingStore.Store Sample.failing
    Sample.shop Sample.cut Sample.session (Sample.world Sample.picked0900 [])
  = (Normal tt,
     {| ui := settled Sample.picked0900; store := [];
        log := [] ++
               [SaveBooking
                  (requestOf Sample.zone Sample.shop Sample.cut "09:00"
                     Sample.day Sample.ana)
                  (Some (Fault "connection lost"));
                ConsoleError (Fault "connection lost")] |}).
Proof.
  apply (storage_fault_is_logged_not_surfaced Sample.zone BookingStore.Store
           Sample.failing Sample.shop Sample.cut Sample.session
           (Sample.world Sample.picked0900 []) "09:00" Sample.day Sample.ana
           [] (Fault "connection lost"));
    try reflexivity.
  discriminate.
Defined.

(** C8, as stated, fails: the slot was taken by another client and the
    storage action answers [SlotTaken]; the time selection is still 09:00
    afterwards and the bookings of the day are not fetched again. *)
Lemma slot_taken_keeps_hour_and_does_not_refetch :
  log (snd (Sample.submit Sample.session
              (Sample.world Sample.picked0900 [Sample.taken0900])))
  = [SaveBooking Sample.request0900 (Some SlotTaken); ConsoleError SlotTaken]
  /\ hour (ui (snd (Sample.submit Sample.session
                      (Sample.world Sample.picked0900 [Sample.taken0900]))))
     = Some "09:00"
  /\ existsb isGetDayBookings
       (log (snd (Sample.submit Sample.session
                    (Sample.world Sample.picked0900 [Sample.taken0900]))))
     = false.
Proof. repeat split; vm_compute; reflexivity. Qed.

Lemma failed_attempt_keeps_selection_witness :
  date (ui (snd (Sample.submit Sample.session
                   (Sample.world Sample.picked0900 [Sample.taken0900]))))
  = Some Sample.day
  /\ hour (ui (snd (Sample.submit Sample.session
                      (Sample.world Sample.picked0900 [Sample.taken0900]))))
     = Some "09:00"
  /\ filter isGetDayBookings
       (log (snd (Sample.submit Sample.session
                    (Sample.world Sample.picked0900 [Sample.taken0900]))))
     = [].
Proof.
  apply (failed_attempt_keeps_selection Sample.zone BookingStore.Store
           (BookingStore.createBooking Sample.zone Sample.newId)
           Sample.shop Sample.cut Sample.session
           (Sample.world Sample.picked0900 [Sample.taken0900])).
  right. exists "09:00", Sample.day, Sample.ana, [Sample.taken0900], SlotTaken.
  repeat split; try reflexivity. discriminate.
Defined.

(** C3, as stated, fails: another client has booked 09:00 since the bookings
    of the day were fetched.  The store's bookings of the day contain it and
    the slot filter over them no longer offers 09:00, yet the handler goes
    straight to the storage action, without a fetch. *)
Lemma submit_does_not_recheck_taken_slot :
  BookingStore.listBookingsForDay Sample.zone "shop-1" Sample.day
    [Sample.taken0900] = [Sample.taken0900]
  /\ timeList Sample.zone Sample.hours
       {| date := Some Sample.day; hour := Some "09:00";
          submitIsLoading := false; sheetIsOpen := true;
          dayBookings := [Sample.taken0900] |}
     = ["10:00"; "11:00"]
  /\ log (snd (Sample.submit Sample.session
                 (Sample.world Sample.picked0900 [Sample.taken0900])))
     = [SaveBooking Sample.request0900 (Some SlotTaken); ConsoleError SlotTaken].
Proof. repeat split; vm_compute; reflexivity. Qed.

Lemma submit_commits_without_recheck_witness :
  exists rest,
    log (snd (Sample.submit Sample.session
                (Sample.world Sample.picked0900 [Sample.taken0900])))
    = [] ++ SaveBooking
              (requestOf Sample.zone Sample.shop Sample.cut "09:00" Sample.day
                 Sample.ana) (Some SlotTaken) :: rest
    /\ existsb isSaveBooking rest = false
    /\ existsb isGetDayBookings
         (SaveBooking
            (requestOf Sample.zone Sample.shop Sample.cut "09:00" Sample.day
               Sample.ana) (Some SlotTaken) :: rest) = false
    /\ store (snd (Sample.submit Sample.session
                     (Sample.world Sample.picked0900 [Sample.taken0900])))
       = [Sample.taken0900].
Proof.
  apply (submit_commits_without_recheck Sample.zone BookingStore.Store
           (BookingStore.createBooking Sample.zone Sample.newId)
           Sample.shop Sample.cut Sample.session
           (Sample.world Sample.picked0900 [Sample.taken0900])
           "09:00" Sample.day Sample.ana [Sample.taken0900] (Some SlotTaken));
    try reflexivity.
  discriminate.
Defined.

(** C9, as stated, fails for the button: with a day and a time of day
    selected and no user in the session the confirm button is enabled, so
    the click reaches the handler; only the guard in the handler stops it. *)
Lemma button_enabled_without_user :
  data_user Sample.anonymous = None
  /\ submitDisabled Sample.picked0900 = false
  /\ guardStops Sample.picked0900 Sample.anonymous = true
  /\ clickSubmit Sample.zone BookingStore.Store
       (BookingStore.createBooking Sample.zone Sample.newId)
       Sample.shop Sample.cut Sample.anonymous
       (Sample.world Sample.picked0900 [])
     = (Return, Sample.world Sample.picked0900 []).
Proof. repeat split; vm_compute; reflexivity. Qed.

Lemma saveBooking_needs_selection_and_user_witness :
  In (SaveBooking Sample.request0900 None)
     (log (snd (Sample.submit Sample.session
                  (Sample.world Sample.picked0900 []))))
  /\ (In (SaveBooking Sample.request0900 None) []
      \/ exists h d u,
           hour Sample.picked0900 = Some h /\ h <> EmptyString
           /\ date Sample.picked0900 = Some d
           /\ data_user Sample.session = Some u
           /\ Sample.request0900
              = requestOf Sample.zone Sample.shop Sample.cut h d u).
Proof.
  split; [left; reflexivity|].
  apply (proj1 (saveBooking_needs_selection_and_user Sample.zone
                  BookingStore.Store
                  (BookingStore.createBooking Sample.zone Sample.newId)
                  Sample.shop Sample.cut Sample.session)
           (Sample.world Sample.picked0900 []) Sample.request0900 None).
  left. reflexivity.
Defined.

(** ** Date arithmetic *)

Lemma made_fields (D h m s ms : Z) :
  0 <= s < 60 -> 0 <= ms < 1000 ->
  let x := MakeDate D (MakeTime h m s ms) in
  SecFromTime x = s /\ msFromTime x = ms
  /\ (0 <= m < 60 ->
      MinFromTime x = m /\ x / msPerHour = D * 24 + h
      /\ (0 <= h < 24 -> HourFromTime x = h /\ Day x = D)).
Proof.
  intros Hs Hms x. subst x.
  unfold MakeDate, MakeTime, SecFromTime, msFromTime, MinFromTime, HourFromTime,
    Day, msPerDay, msPerHour, msPerMinute, msPerSecond.
  repeat split; intros; Z.to_euclidean_division_equations; lia.
Qed.

Lemma fields_bounds (x : Z) :
  0 <= MinFromTime x < 60 /\ 0 <= SecFromTime x < 60 /\ 0 <= msFromTime x < 1000.
Proof.
  unfold MinFromTime, SecFromTime, msFromTime, msPerSecond.
  repeat split; try (apply Z.mod_pos_bound; lia).
Qed.

Lemma day_and_hour (x : Z) :
  Day x * msPerDay + HourFromTime x * msPerHour = x / msPerHour * msPerHour.
Proof.
  unfold Day, HourFromTime, msPerDay, msPerHour.
  Z.to_euclidean_division_equations; lia.
Qed.

Lemma TimeClip_At (x t : Z) : TimeClip x = At t -> t = x.
Proof.
  unfold TimeClip. destruct (Z.abs x <=? maxTime); congruence.
Qed.

Section DateArith.

Variable LocalTZA : Z -> bool -> Z.

(** [setMinutes(setHours(date, h), m)], when it is a valid date and the two
    local times the setters pass through exist in the zone: in local time,
    the midnight of the day of [date], plus [h] hours and [m] minutes, plus
    the seconds and milliseconds of [date]. *)
Lemma setMinutes_setHours_local (t h m t' : Z) :
  existsLocally LocalTZA
    (MakeDate (Day (LocalTime LocalTZA t))
       (MakeTime h (MinFromTime (LocalTime LocalTZA t))
          (SecFromTime (LocalTime LocalTZA t))
          (msFromTime (LocalTime LocalTZA t)))) = true ->
  existsLocally LocalTZA
    (MakeDate (Day (LocalTime LocalTZA t))
       (MakeTime h m (SecFromTime (LocalTime LocalTZA t))
          (msFromTime (LocalTime LocalTZA t)))) = true ->
  setMinutes LocalTZA (setHours LocalTZA (At t) (Js.Num h)) (Js.Num m) = At t' ->
  LocalTime LocalTZA t'
  = MakeDate (Day (LocalTime LocalTZA t))
      (MakeTime h m (SecFromTime (LocalTime LocalTZA t))
         (msFromTime (LocalTime LocalTZA t))).
Proof.
  unfold setMinutes, setHours, nativeSetMinutes, nativeSetHours, existsLocally.
  cbn [Js.truncated].
  set (l := LocalTime LocalTZA t). intros X1 X2.
  apply Z.eqb_eq in X1, X2.
  destruct (TimeClip _) as [|t1] eqn:E1; [discriminate|].
  apply TimeClip_At in E1. intros E2. apply TimeClip_At in E2.
  destruct (fields_bounds l) as (Bm & Bs & Bms).
  destruct (made_fields (Day l) h (MinFromTime l) (SecFromTime l) (msFromTime l)
              Bs Bms) as (Fs & Fms & F).
  destruct (F Bm) as (_ & Fh & _).
  assert (L1 : LocalTime LocalTZA t1
               = MakeDate (Day l)
                   (MakeTime h (MinFromTime l) (SecFromTime l) (msFromTime l)))
    by (subst t1; exact X1).
  rewrite L1 in E2. rewrite Fs, Fms in E2.
  pose proof (day_and_hour
    (MakeDate (Day l) (MakeTime h (MinFromTime l) (SecFromTime l) (msFromTime l))))
    as DH.
  rewrite Fh in DH.
  assert (L2 : MakeDate
                 (Day (MakeDate (Day l)
                         (MakeTime h (MinFromTime l) (SecFromTime l)
                            (msFromTime l))))
                 (MakeTime
                    (HourFromTime
                       (MakeDate (Day l)
                          (MakeTime h (MinFromTime l) (SecFromTime l)
                             (msFromTime l))))
                    m (SecFromTime l) (msFromTime l))
               = MakeDate (Day l)
                   (MakeTime h m (SecFromTime l) (msFromTime l))).
  { unfold MakeDate, MakeTime in *. unfold msPerDay, msPerHour in *. lia. }
  rewrite L2 in E2. subst t'. exact X2.
Qed.

(** [addDays(date, 1)]: the local time a day later, read back in the zone. *)
Lemma addDays_one (t : Z) :
  addDays LocalTZA (At t) 1
  = TimeClip (UTC LocalTZA (LocalTime LocalTZA t + msPerDay)).
Proof.
  unfold addDays. cbn [Z.eqb]. do 2 f_equal.
  unfold MakeDate, Day, TimeWithinDay, msPerDay.
  Z.to_euclidean_division_equations; lia.
Qed.

End DateArith.

Section Submitted.

Variable LocalTZA : Z -> bool -> Z.
Variable Store : Type.
Variable saveBooking : SaveBookingParams.t -> Store -> Store * option Error.
Variable barbershop : Barbershop.t.
Variable service : Service.t.
Variable data : option Session.t.

Local Abbreviation submit :=
  (handleBookingSubmit LocalTZA Store saveBooking barbershop service data).

(** C5 (amended).  The calendar offers the days from [addDays(now, 1)] on:
    the local time of the clock at render moved to the next calendar day and
    read back in the zone.  The submit handler does not compare the selected
    day with the clock or with that bound: with a time of day, a day and a
    user present it calls the storage action for the selected day, whatever
    that day is. *)
Theorem only_the_calendar_bounds_the_day :
  (forall now : Z,
      calendarFromDate LocalTZA (At now)
      = TimeClip (UTC LocalTZA (LocalTime LocalTZA now + msPerDay)))
  /\ (forall (w : World Store) h d u st thrown,
        hour (ui w) = Some h -> h <> EmptyString ->
        date (ui w) = Some d -> data_user data = Some u ->
        saveBooking (requestOf LocalTZA barbershop service h d u) (store w)
          = (st, thrown) ->
        In (SaveBooking (requestOf LocalTZA barbershop service h d u) thrown)
           (log (snd (submit w)))
        /\ store (snd (submit w)) = st).
Proof.
  split.
  - intros now. apply addDays_one.
  - intros w h d u st thrown Hh Hne Hd Hu Hs.
    rewrite (submit_sent LocalTZA Store saveBooking barbershop service data
               w h d u st thrown Hh Hne Hd Hu Hs).
    cbn [snd log store]. split; [|reflexivity].
    apply in_or_app. right. now left.
Qed.


End Submitted.

(** C5, as stated, fails: the clock stands at 14 November 2023, the calendar
    would offer days from 15 November on, and the render still holds
    10 November (selected earlier); the handler commits the booking for
    10 November 09:00, a moment in the past. *)
Lemma submit_commits_a_past_day :
  calendarFromDate Sample.zone (At 1700000000000) = At 1700086400000
  /\ Sample.submit Sample.session (Sample.world Sample.picked0900 [])
     = (Normal tt,
        {| ui := cleared Sample.picked0900;
           store :=
             [ {| Booking.id := "booking";
                  Booking.userId := Some "user-1";
                  Booking.serviceId := "service-1";
                  Booking.barbershopId := "shop-1";
                  Booking.date := At 1699617600000 |} ];
           log := [SaveBooking Sample.request0900 None;
                   Toast "Reserva realizada com sucesso!" (At 1699617600000)] |})
  /\ 1699617600000 < 1700000000000.
Proof. repeat split; vm_compute; reflexivity. Qed.

(** In New York the clock stands at 14:00 on 9 March 2024; the calendar
    opens at 14:00 on 10 March, 23 hours later, the clocks having moved
    forward in the night. *)
Lemma only_the_calendar_bounds_the_day_witness :
  calendarFromDate Sample.newYork (At 1710010800000) = At 1710093600000
  /\ In (SaveBooking
           (requestOf Sample.zone Sample.shop Sample.cut "09:00" Sample.day
              Sample.ana) None)
        (log (snd (Sample.submit Sample.session
                     (Sample.world Sample.picked0900 [])))).
Proof.
  split.
  - exact (proj1 (only_the_calendar_bounds_the_day Sample.newYork
                    BookingStore.Store
                    (BookingStore.createBooking Sample.newYork Sample.newId)
                    Sample.shop Sample.cut Sample.session) 1710010800000).
  - refine (proj1 (proj2 (only_the_calendar_bounds_the_day Sample.zone
                            BookingStore.Store
                            (BookingStore.createBooking Sample.zone Sample.newId)
                            Sample.shop Sample.cut Sample.session)
                     (Sample.world Sample.picked0900 []) "09:00" Sample.day
                     Sample.ana _ None eq_refl _ eq_refl eq_refl eq_refl)).
    discriminate.
Defined.



(** ** Order and equality of numbers *)

Ltac num_cases :=
  intros;
  repeat match goal with
         | a : Js.num |- _ => destruct a as [| ? | ? ? | []]
         end;
  cbn [Js.lt Js.strict_eq Bool.eqb] in *;
  try discriminate; try reflexivity;
  repeat match goal with
         | k : positive |- _ =>
             let P := fresh "P" in
             let HP := fresh "HP" in
             assert (HP : 0 < 2 ^ Zpos k) by (apply Z.pow_pos_nonneg; lia);
             set (P := 2 ^ Zpos k) in *; clearbody P; clear k
         end;
  repeat match goal with
         | H : (_ <? _) = true |- _ => apply Z.ltb_lt in H
         | H : (_ =? _) = true |- _ => apply Z.eqb_eq in H
         end;
  try (apply Z.ltb_lt); try (apply Z.eqb_eq); try (apply Z.ltb_ge);
  try nia.

Lemma lt_trans (a b c : Js.num) :
  Js.lt a b = true -> Js.lt b c = true -> Js.lt a c = true.
Proof. num_cases. Qed.

Lemma lt_irrefl (a : Js.num) : Js.lt a a = false.
Proof. num_cases. Qed.

Lemma strict_eq_lt (a b c : Js.num) :
  Js.strict_eq a b = true -> Js.lt b c = true -> Js.lt a c = true.
Proof. num_cases. Qed.

Lemma lt_strict_eq (a b c : Js.num) :
  Js.lt a b = true -> Js.strict_eq b c = true -> Js.lt a c = true.
Proof. num_cases. Qed.

Lemma strict_eq_trans (a b c : Js.num) :
  Js.strict_eq a b = true -> Js.strict_eq b c = true ->
  Js.strict_eq a c = true.
Proof. num_cases. Qed.

(** ** The slot filter *)

Section Slots.

Variable LocalTZA : Z -> bool -> Z.
Variable generateDayTimeList : Date -> list string.

Lemma find_existsb {A : Type} (f : A -> bool) (l : list A) :
  negb (Js.truthy_ref (find f l)) = negb (existsb f l).
Proof.
  induction l as [|a l IH]; cbn; [reflexivity|].
  destruct (f a); cbn; [reflexivity | exact IH].
Qed.

Lemma timeList_filterAvailable (s : State) (d : Date) :
  date s = Some d ->
  timeList LocalTZA generateDayTimeList s
  = filterAvailable LocalTZA (generateDayTimeList d) (dayBookings s).
Proof.
  intros Hd. unfold timeList, filterAvailable. rewrite Hd.
  apply filter_ext. intros time.
  rewrite <- find_existsb.
  unfold sameTimeOfDay, bookingTimeOfDay, slotTimeOfDay. cbn [fst snd].
  now destruct (negb _).
Qed.

(** C2.  For every set of bookings of the day and every slot sequence, the
    slots [timeList] keeps are exactly the slots of the sequence whose time
    of day, read on hour and minute, is the time of day of no booking; it is
    the filter of the spec, slot for slot and in the same order. *)
Theorem timeList_excludes_exactly_booked_slots
    (d : Date) (h : option string) (l o : bool) (B : list Booking.t) :
  let s := {| date := Some d; hour := h; submitIsLoading := l;
              sheetIsOpen := o; dayBookings := B |} in
  timeList LocalTZA generateDayTimeList s
  = filterAvailable LocalTZA (generateDayTimeList d) B
  /\ forall slot : string,
       In slot (timeList LocalTZA generateDayTimeList s)
       <-> In slot (generateDayTimeList d)
           /\ ~ exists booking,
                  In booking B
                  /\ sameTimeOfDay (bookingTimeOfDay LocalTZA booking)
                                   (slotTimeOfDay slot) = true.
Proof.
  intros s.
  assert (E : timeList LocalTZA generateDayTimeList s
              = filterAvailable LocalTZA (generateDayTimeList d) B)
    by now apply timeList_filterAvailable.
  split; [exact E|]. intros slot. rewrite E. unfold filterAvailable.
  rewrite filter_In, negb_true_iff.
  split; intros [HIn H]; (split; [exact HIn|]).
  - intros (b & Hb & Hsame).
    assert (X : existsb
                  (fun booking =>
                     sameTimeOfDay (bookingTimeOfDay LocalTZA booking)
                                   (slotTimeOfDay slot)) B = true)
      by (apply existsb_exists; eauto).
    congruence.
  - destruct (existsb _ B) eqn:X; [|reflexivity].
    apply existsb_exists in X. contradiction.
Qed.

Lemma labelLt_trans (a b c : string) : labelLt a b -> labelLt b c -> labelLt a c.
Proof.
  unfold labelLt, timeOfDayLt, num_lt.
  destruct (slotTimeOfDay a) as [ha ma], (slotTimeOfDay b) as [hb mb],
    (slotTimeOfDay c) as [hc mc]; cbn [fst snd].
  rewrite !orb_true_iff, !andb_true_iff.
  intros [H1 | [E1 M1]] [H2 | [E2 M2]].
  - left. eapply lt_trans; eassumption.
  - left. eapply lt_strict_eq; eassumption.
  - left. eapply strict_eq_lt; eassumption.
  - right. split; [eapply strict_eq_trans | eapply lt_trans]; eassumption.
Qed.

Lemma ascending_cons (a : string) (l : list string) :
  ascending (a :: l) = true <-> Forall (labelLt a) l /\ ascending l = true.
Proof.
  revert a. induction l as [|b l IH]; intros a.
  - cbn. intuition constructor.
  - change (ascending (a :: b :: l))
      with (timeOfDayLt (slotTimeOfDay a) (slotTimeOfDay b) && ascending (b :: l)).
    rewrite andb_true_iff. split.
    + intros [Hab Hbl]. split; [|exact Hbl].
      constructor; [exact Hab|].
      apply IH in Hbl. destruct Hbl as [Hb _].
      eapply Forall_impl; [|exact Hb]. intros c. now apply labelLt_trans.
    + intros [Hall Hbl]. split; [|exact Hbl]. now inversion Hall.
Qed.

Lemma ascending_filter (f : string -> bool) (l : list string) :
  ascending l = true -> ascending (filter f l) = true.
Proof.
  induction l as [|a l IH]; [reflexivity|].
  intros H. apply ascending_cons in H. destruct H as [Hall Hl].
  cbn [filter]. destruct (f a); [|now apply IH].
  apply ascending_cons. split; [|now apply IH].
  rewrite Forall_forall in *. intros x Hx. apply filter_In in Hx.
  now apply Hall.
Qed.

(** C6.  When the slot sequence of the selected day is strictly ascending by
    time of day, so is what [timeList] keeps of it. *)
Theorem timeList_preserves_ascending_order (s : State) (d : Date) :
  date s = Some d ->
  ascending (generateDayTimeList d) = true ->
  ascending (timeList LocalTZA generateDayTimeList s) = true.
Proof.
  intros Hd H. unfold timeList. rewrite Hd. now apply ascending_filter.
Qed.

End Slots.

Example timeList_scenario_2 :
  timeList Sample.zone Sample.hours
    {| date := Some Sample.day; hour := None; submitIsLoading := false;
       sheetIsOpen := true;
       dayBookings :=
         [ {| Booking.id := "booking-1"; Booking.userId := Some "user-2";
              Booking.serviceId := "service-1"; Booking.barbershopId := "shop-1";
              Booking.date := At 1699621200000 |} ] |}
  = ["09:00"; "11:00"].
Proof. vm_compute. reflexivity. Qed.

Lemma timeList_excludes_exactly_booked_slots_witness :
  In "10:00"
     (timeList Sample.zone Sample.hours
        {| date := Some Sample.day; hour := None; submitIsLoading := false;
           sheetIsOpen := true; dayBookings := [Sample.taken0900] |})
  <-> In "10:00" (Sample.hours Sample.day)
      /\ ~ exists booking,
             In booking [Sample.taken0900]
             /\ sameTimeOfDay (bookingTimeOfDay Sample.zone booking)
                              (slotTimeOfDay "10:00") = true.
Proof.
  apply (timeList_excludes_exactly_booked_slots Sample.zone Sample.hours
           Sample.day None false true [Sample.taken0900]).
Defined.

Lemma timeList_preserves_ascending_order_witness :
  ascending (Sample.hours Sample.day) = true
  /\ ascending
       (timeList Sample.zone Sample.hours
          {| date := Some Sample.day; hour := None; submitIsLoading := false;
             sheetIsOpen := true; dayBookings := [Sample.taken0900] |}) = true.
Proof.
  split; [reflexivity|].
  apply (timeList_preserves_ascending_order Sample.zone Sample.hours
           {| date := Some Sample.day; hour := None; submitIsLoading := false;
              sheetIsOpen := true; dayBookings := [Sample.taken0900] |}
           Sample.day); reflexivity.
Defined.

(** ** Racing clients *)

Section RaceFacts.

Variable LocalTZA : Z -> bool -> Z.
Variable newId : list Booking.t -> string.

Local Abbreviation localRun := (Race.localRun LocalTZA).
Local Abbreviation submitRequest := (Race.submitRequest LocalTZA).
Local Abbreviation confirmed := (Race.confirmed LocalTZA).
Local Abbreviation createBooking := (BookingStore.createBooking LocalTZA newId).
Local Abbreviation uniqueSlots := (BookingStore.uniqueSlots LocalTZA).
Local Abbreviation bookingKey := (BookingStore.bookingKey LocalTZA).
Local Abbreviation paramsKey := (BookingStore.paramsKey LocalTZA).
Local Abbreviation storeCount := (Race.storeCount LocalTZA).
Local Abbreviation confirmedCount := (Race.confirmedCount LocalTZA).
Local Abbreviation onSlot := (Race.onSlot LocalTZA).

(** What the client sees of a call, by the guard and the storage answer. *)
Lemma localRun_cases (c : Race.Call) (thrown : option Error) :
  (guardStops (Race.render c) (Race.data c) = true
   /\ localRun c thrown
      = {| ui := settled (Race.render c); store := tt; log := [] |})
  \/ (exists h d u,
        guardStops (Race.render c) (Race.data c) = false
        /\ localRun c thrown
           = {| ui := match thrown with
                      | None => cleared (Race.render c)
                      | Some _ => settled (Race.render c)
                      end;
                store := tt;
                log :=
                  SaveBooking
                    (requestOf LocalTZA (Race.barbershop c) (Race.service c) h d u)
                    thrown
                  :: match thrown with
                     | Some e => [ConsoleError e]
                     | None =>
                         match SaveBookingParams.date
                                 (requestOf LocalTZA (Race.barbershop c)
                                    (Race.service c) h d u) with
                         | At t => [Toast "Reserva realizada com sucesso!" (At t)]
                         | Invalid =>
                             [ConsoleError (RangeError "Invalid time value")]
                         end
                     end |}).
Proof.
  unfold Race.localRun.
  set (w := {| ui := Race.render c; store := tt; log := [] |}).
  destruct (submit_cases LocalTZA unit (fun _ _ => (tt, thrown))
              (Race.barbershop c) (Race.service c) (Race.data c) w)
    as [[G E] | (h & d & u & Hh & Hne & Hd & Hu & G)].
  - left. split; [exact G|]. now rewrite E.
  - right. exists h, d, u. split; [exact G|].
    now rewrite (submit_sent LocalTZA unit (fun _ _ => (tt, thrown))
                   (Race.barbershop c) (Race.service c) (Race.data c)
                   w h d u tt thrown Hh Hne Hd Hu eq_refl).
Qed.

Lemma failed_run_confirms_nothing (c : Race.Call) (e : Error) :
  Race.confirmedIn (log (localRun c (Some e))) = None.
Proof.
  destruct (localRun_cases c (Some e)) as [[_ E] | (h & d & u & _ & E)];
    rewrite E; reflexivity.
Qed.

(** The handler over any store is the client's view of it around one call
    of the storage action. *)
Lemma handler_touches_store_once
    (Store : Type) (saveBooking : SaveBookingParams.t -> Store -> Store * option Error)
    (c : Race.Call) (st : Store) :
  handleBookingSubmit LocalTZA Store saveBooking
    (Race.barbershop c) (Race.service c) (Race.data c)
    {| ui := Race.render c; store := st; log := [] |}
  = match submitRequest c with
    | None =>
        (Return,
         {| ui := ui (localRun c None); store := st;
            log := log (localRun c None) |})
    | Some p =>
        (Normal tt,
         {| ui := ui (localRun c (snd (saveBooking p st)));
            store := fst (saveBooking p st);
            log := log (localRun c (snd (saveBooking p st))) |})
    end.
Proof.
  set (w := {| ui := Race.render c; store := st; log := [] |}).
  unfold Race.submitRequest.
  destruct (submit_cases LocalTZA Store saveBooking
              (Race.barbershop c) (Race.service c) (Race.data c) w)
    as [[G E] | (h & d & u & Hh & Hne & Hd & Hu & G)].
  - rewrite E.
    destruct (localRun_cases c None) as [[_ E'] | (? & ? & ? & G' & _)];
      [|unfold w in G; cbn [ui] in G; congruence].
    rewrite E'. reflexivity.
  - destruct (saveBooking (requestOf LocalTZA (Race.barbershop c)
                             (Race.service c) h d u) st) as [st' thrown] eqn:Hs.
    rewrite (submit_sent LocalTZA Store saveBooking
               (Race.barbershop c) (Race.service c) (Race.data c)
               w h d u st' thrown Hh Hne Hd Hu Hs).
    set (v := {| ui := Race.render c; store := tt; log := [] |}).
    assert (R : forall r, localRun c r = snd
               (Normal tt,
                {| ui := match r with
                         | None => cleared (ui v)
                         | Some _ => settled (ui v)
                         end;
                   store := tt;
                   log := log v
                     ++ SaveBooking (requestOf LocalTZA (Race.barbershop c)
                                       (Race.service c) h d u) r
                     :: match r with
                        | Some e => [ConsoleError e]
                        | None =>
                            match SaveBookingParams.date
                                    (requestOf LocalTZA (Race.barbershop c)
                                       (Race.service c) h d u) with
                            | At t => [Toast "Reserva realizada com sucesso!" (At t)]
                            | Invalid =>
                                [ConsoleError (RangeError "Invalid time value")]
                            end
                        end |})).
    { intros r. unfold Race.localRun. fold v.
      now rewrite (submit_sent LocalTZA unit (fun _ _ => (tt, r))
                     (Race.barbershop c) (Race.service c) (Race.data c)
                     v h d u tt r Hh Hne Hd Hu eq_refl). }
    rewrite (R None). unfold v. cbn [snd log app Race.confirmedIn].
    rewrite Hs. cbn [fst snd]. rewrite (R thrown). reflexivity.
Qed.

Lemma key_eqb_eq (a b : string * Z * Z * Z) :
  BookingStore.key_eqb a b = true <-> a = b.
Proof.
  destruct a as [[[s1 d1] h1] m1], b as [[[s2 d2] h2] m2].
  unfold BookingStore.key_eqb.
  rewrite !andb_true_iff, String.eqb_eq, !Z.eqb_eq.
  split; [intros [[[-> ->] ->] ->]; reflexivity | intros E; injection E; auto].
Qed.

Lemma collide_eq (a b : option (string * Z * Z * Z)) :
  BookingStore.collide a b = true <-> exists k, a = Some k /\ b = Some k.
Proof.
  destruct a as [x|], b as [y|]; cbn;
    try (split; [discriminate | intros (k & ? & ?); discriminate]).
  rewrite key_eqb_eq. split.
  - intros ->. eauto.
  - intros (k & ? & ?). congruence.
Qed.

Lemma collide_sym (a b : option (string * Z * Z * Z)) :
  BookingStore.collide a b = BookingStore.collide b a.
Proof.
  destruct (BookingStore.collide a b) eqn:E1, (BookingStore.collide b a) eqn:E2;
    try reflexivity.
  - apply collide_eq in E1. destruct E1 as (k & -> & ->).
    cbn in E2. assert (BookingStore.key_eqb k k = true) by now apply key_eqb_eq.
    congruence.
  - apply collide_eq in E2. destruct E2 as (k & -> & ->).
    cbn in E1. assert (BookingStore.key_eqb k k = true) by now apply key_eqb_eq.
    congruence.
Qed.

Lemma createBooking_cases (p : SaveBookingParams.t) (st st' : BookingStore.Store)
    (thrown : option Error) :
  createBooking p st = (st', thrown) ->
  (thrown = Some SlotTaken /\ st' = st)
  \/ (thrown = None
      /\ exists b, st' = st ++ [b] /\ bookingKey b = paramsKey p
         /\ forall b', In b' st ->
              BookingStore.collide (paramsKey p) (bookingKey b') = false).
Proof.
  unfold BookingStore.createBooking.
  destruct (existsb _ st) eqn:X; intros E; injection E as <- <-.
  - now left.
  - right. split; [reflexivity|]. eexists. split; [reflexivity|].
    split; [reflexivity|]. intros b' Hb'.
    destruct (BookingStore.collide _ (bookingKey b')) eqn:C; [|reflexivity].
    enough (existsb
              (fun b => BookingStore.collide (paramsKey p) (bookingKey b)) st
            = true) by congruence.
    apply existsb_exists. eauto.
Qed.

Lemma uniqueSlots_snoc (st : BookingStore.Store) (b : Booking.t) :
  uniqueSlots st = true ->
  (forall b', In b' st ->
     BookingStore.collide (bookingKey b') (bookingKey b) = false) ->
  uniqueSlots (st ++ [b]) = true.
Proof.
  induction st as [|a st IH]; intros U F; [reflexivity|].
  cbn in U |- *. apply andb_true_iff in U. destruct U as [Ua Ust].
  apply andb_true_iff. split.
  - rewrite existsb_app. apply negb_true_iff in Ua. rewrite Ua. cbn.
    rewrite (F a (or_introl eq_refl)). reflexivity.
  - apply IH; [exact Ust|]. intros b' Hb'. apply F. now right.
Qed.

Lemma uniqueSlots_count (st : BookingStore.Store) (k : string * Z * Z * Z) :
  uniqueSlots st = true -> (storeCount k st <= 1)%nat.
Proof.
  unfold Race.storeCount.
  induction st as [|a st IH]; intros U; [cbn; lia|].
  cbn in U. apply andb_true_iff in U. destruct U as [Ua Ust].
  cbn [filter]. destruct (BookingStore.collide (Some k) (bookingKey a)) eqn:C.
  - enough (E : filter
                  (fun b => BookingStore.collide (Some k) (bookingKey b)) st = [])
      by (rewrite E; cbn; lia).
    destruct (filter _ st) as [|b rest] eqn:Fl; [reflexivity|exfalso].
    assert (Hb : In b (filter
                         (fun b => BookingStore.collide (Some k) (bookingKey b))
                         st)) by (rewrite Fl; now left).
    apply filter_In in Hb. destruct Hb as [Hb Cb].
    apply negb_true_iff in Ua.
    enough (existsb
              (fun b' => BookingStore.collide (bookingKey a) (bookingKey b')) st
            = true) by congruence.
    apply existsb_exists. exists b. split; [exact Hb|].
    apply collide_eq in C, Cb. destruct C as (k1 & K1 & Ka), Cb as (k2 & K2 & Kb).
    apply collide_eq. exists k. split; congruence.
  - now apply IH.
Qed.

Lemma storeCount_snoc (k : string * Z * Z * Z) (st : BookingStore.Store)
    (b : Booking.t) :
  storeCount k (st ++ [b])
  = (storeCount k st
     + if BookingStore.collide (Some k) (bookingKey b) then 1 else 0)%nat.
Proof.
  unfold Race.storeCount. rewrite filter_app, length_app. cbn [filter].
  now destruct (BookingStore.collide _ _).
Qed.

Lemma confirmedCount_split (k : string * Z * Z * Z)
    (before after : list Race.Client) (c : Race.Client) :
  confirmedCount k (before ++ c :: after)
  = (confirmedCount k before + (if onSlot k c then 1 else 0)
     + confirmedCount k after)%nat.
Proof.
  unfold Race.confirmedCount. rewrite filter_app, length_app. cbn [filter].
  destruct (onSlot k c); cbn [List.length]; lia.
Qed.

Lemma clientStep_counts (st st' : BookingStore.Store) (c c' : Race.Client) :
  Race.clientStep LocalTZA newId st c st' c' ->
  uniqueSlots st = true ->
  uniqueSlots st' = true
  /\ forall k,
       ((if onSlot k c' then 1 else 0) + storeCount k st
        <= (if onSlot k c then 1 else 0) + storeCount k st')%nat.
Proof.
  intros S U. destruct S as [c st R | c st p R | c st p st' thrown R C | c st thrown].
  - split; [exact U|]. intros k. unfold Race.onSlot, Race.confirmed.
    cbn [Race.phase Race.call]. fold (submitRequest c). rewrite R. lia.
  - split; [exact U|]. intros k. unfold Race.onSlot, Race.confirmed.
    cbn [Race.phase]. lia.
  - apply createBooking_cases in C.
    destruct C as [[-> ->] | [-> (b & -> & Kb & Free)]].
    + split; [exact U|]. intros k. unfold Race.onSlot, Race.confirmed.
      cbn [Race.phase]. lia.
    + split.
      * apply uniqueSlots_snoc; [exact U|]. intros b' Hb'.
        rewrite Kb, collide_sym. now apply Free.
      * intros k. rewrite storeCount_snoc. unfold Race.onSlot, Race.confirmed.
        cbn [Race.phase Race.call]. rewrite R, Kb. lia.
  - split; [exact U|]. intros k. unfold Race.onSlot, Race.confirmed.
    cbn [Race.phase Race.call]. destruct thrown as [e|].
    + rewrite failed_run_confirms_nothing. lia.
    + fold (submitRequest c). lia.
Qed.

Lemma step_consistent (sys sys' : Race.System) :
  Race.step LocalTZA newId sys sys' ->
  Race.consistent LocalTZA sys -> Race.consistent LocalTZA sys'.
Proof.
  intros S [U N]. destruct S as [st st' before c c' after S].
  cbn [Race.bookings Race.clients] in *.
  destruct (clientStep_counts st st' c c' S U) as [U' D].
  split; [exact U'|]. intros k. cbn [Race.bookings Race.clients].
  specialize (N k). specialize (D k).
  rewrite confirmedCount_split in *. lia.
Qed.

Lemma steps_consistent (sys sys' : Race.System) :
  Race.steps LocalTZA newId sys sys' ->
  Race.consistent LocalTZA sys -> Race.consistent LocalTZA sys'.
Proof.
  induction 1 as [sys | sys1 sys2 sys3 _ IH S]; [auto|].
  intros I. apply (step_consistent sys2 sys3 S). now apply IH.
Qed.

Lemma start_consistent (st : BookingStore.Store) (calls : list Race.Call) :
  uniqueSlots st = true -> Race.consistent LocalTZA (Race.start st calls).
Proof.
  intros U. split; [exact U|]. intros k. cbn [Race.start Race.clients].
  enough (confirmedCount k
            (map (fun c => {| Race.call := c; Race.phase := Race.Idle |}) calls)
          = 0%nat) by lia.
  unfold Race.confirmedCount. induction calls as [|c calls IH]; [reflexivity|].
  cbn [map filter]. unfold Race.onSlot at 1, Race.confirmed. cbn [Race.phase].
  exact IH.
Qed.

(** C1.  Clients submit against one store under any schedule.  The store
    keeps its bookings unique by business, day and time of day, and no two
    clients whose requests fall on the same business, day and time of day
    are both confirmed. *)
Theorem no_double_booking
    (st : BookingStore.Store) (calls : list Race.Call) (sys : Race.System) :
  uniqueSlots st = true ->
  Race.steps LocalTZA newId (Race.start st calls) sys ->
  uniqueSlots (Race.bookings sys) = true
  /\ forall before c1 between c2 after p1 p2,
       Race.clients sys = before ++ c1 :: between ++ c2 :: after ->
       confirmed c1 = Some p1 -> confirmed c2 = Some p2 ->
       BookingStore.collide (paramsKey p1) (paramsKey p2) = false.
Proof.
  intros U S.
  destruct (steps_consistent _ _ S (start_consistent st calls U)) as [U' N].
  split; [exact U'|].
  intros before c1 between c2 after p1 p2 E C1 C2.
  destruct (BookingStore.collide (paramsKey p1) (paramsKey p2)) eqn:X;
    [exfalso|reflexivity].
  apply collide_eq in X. destruct X as (k & K1 & K2).
  specialize (N k). pose proof (uniqueSlots_count _ k U') as B.
  rewrite E in N. rewrite !confirmedCount_split in N.
  assert (K : BookingStore.key_eqb k k = true) by now apply key_eqb_eq.
  unfold Race.onSlot in N. rewrite C1, C2, K1, K2 in N. cbn in N.
  rewrite K in N. lia.
Qed.

End RaceFacts.

(** Two clients race for 09:00 on the same day: both send their request, the
    second one commits first, the first one is answered [SlotTaken]. *)
Lemma sample_race :
  Race.steps Sample.zone Sample.newId
    (Race.start [] [Sample.caller; Sample.caller])
    {| Race.bookings :=
         [ {| Booking.id := "booking";
              Booking.userId := Some "user-1";
              Booking.serviceId := "service-1";
              Booking.barbershopId := "shop-1";
              Booking.date := At 1699617600000 |} ];
       Race.clients :=
         [ {| Race.call := Sample.caller;
              Race.phase :=
                Race.Finished
                  (Race.localRun Sample.zone Sample.caller (Some SlotTaken)) |};
           {| Race.call := Sample.caller;
              Race.phase :=
                Race.Finished (Race.localRun Sample.zone Sample.caller None) |} ] |}.
Proof.
  pose (b := {| Booking.id := "booking";
                Booking.userId := Some "user-1";
                Booking.serviceId := "service-1";
                Booking.barbershopId := "shop-1";
                Booking.date := At 1699617600000 |}).
  pose (cl := fun ph => {| Race.call := Sample.caller; Race.phase := ph |}).
  eapply Race.steps_snoc;
    [| apply (Race.step_client Sample.zone Sample.newId [b] [b]
                [cl (Race.Finished
                       (Race.localRun Sample.zone Sample.caller (Some SlotTaken)))]
                (cl (Race.Settled None)) _ []);
       apply Race.resume ].
  eapply Race.steps_snoc;
    [| apply (Race.step_client Sample.zone Sample.newId [b] [b]
                [] (cl (Race.Settled (Some SlotTaken))) _ [cl (Race.Settled None)]);
       apply Race.resume ].
  eapply Race.steps_snoc;
    [| apply (Race.step_client Sample.zone Sample.newId [b] [b]
                [] (cl Race.Awaiting) _ [cl (Race.Settled None)]);
       apply (Race.commit Sample.zone Sample.newId Sample.caller [b]
                Sample.request0900 [b] (Some SlotTaken)); reflexivity ].
  eapply Race.steps_snoc;
    [| apply (Race.step_client Sample.zone Sample.newId [] [b]
                [cl Race.Awaiting] (cl Race.Awaiting) _ []);
       apply (Race.commit Sample.zone Sample.newId Sample.caller []
                Sample.request0900 [b] None); reflexivity ].
  eapply Race.steps_snoc;
    [| apply (Race.step_client Sample.zone Sample.newId [] []
                [cl Race.Awaiting] (cl Race.Idle) _ []);
       apply (Race.invoke_send Sample.zone Sample.newId Sample.caller []
                Sample.request0900); reflexivity ].
  eapply Race.steps_snoc;
    [| apply (Race.step_client Sample.zone Sample.newId [] []
                [] (cl Race.Idle) _ [cl Race.Idle]);
       apply (Race.invoke_send Sample.zone Sample.newId Sample.caller []
                Sample.request0900); reflexivity ].
  apply Race.steps_refl.
Defined.

Lemma no_double_booking_witness :
  BookingStore.uniqueSlots Sample.zone [] = true
  /\ BookingStore.uniqueSlots Sample.zone
       [ {| Booking.id := "booking";
            Booking.userId := Some "user-1";
            Booking.serviceId := "service-1";
            Booking.barbershopId := "shop-1";
            Booking.date := At 1699617600000 |} ] = true
  /\ forall before c1 between c2 after p1 p2,
       [ {| Race.call := Sample.caller;
            Race.phase :=
              Race.Finished
                (Race.localRun Sample.zone Sample.caller (Some SlotTaken)) |};
         {| Race.call := Sample.caller;
            Race.phase :=
              Race.Finished (Race.localRun Sample.zone Sample.caller None) |} ]
       = before ++ c1 :: between ++ c2 :: after ->
       Race.confirmed Sample.zone c1 = Some p1 ->
       Race.confirmed Sample.zone c2 = Some p2 ->
       BookingStore.collide (BookingStore.paramsKey Sample.zone p1)
                            (BookingStore.paramsKey Sample.zone p2) = false.
Proof.
  split; [reflexivity|].
  exact (no_double_booking Sample.zone Sample.newId []
           [Sample.caller; Sample.caller] _ eq_refl sample_race).
Defined.

Example sample_race_outcome :
  Race.confirmed Sample.zone
    {| Race.call := Sample.caller;
       Race.phase :=
         Race.Finished (Race.localRun Sample.zone Sample.caller None) |}
  = Some Sample.request0900
  /\ Race.confirmed Sample.zone
       {| Race.call := Sample.caller;
          Race.phase :=
            Race.Finished
              (Race.localRun Sample.zone Sample.caller (Some SlotTaken)) |}
     = None
  /\ Race.slotTaken
       {| Race.call := Sample.caller;
          Race.phase :=
            Race.Finished
              (Race.localRun Sample.zone Sample.caller (Some SlotTaken)) |}
     = true.
Proof. repeat split; vm_compute; reflexivity. Qed.

(** * Further properties of the component *)

(** ** The submit handler and the confirm button *)

Section SubmitMore.

Variable LocalTZA : Z -> bool -> Z.
Variable Store : Type.
Variable saveBooking : SaveBookingParams.t -> Store -> Store * option Error.
Variable barbershop : Barbershop.t.
Variable service : Service.t.
Variable data : option Session.t.

Local Abbreviation submit :=
  (handleBookingSubmit LocalTZA Store saveBooking barbershop service data).
Local Abbreviation click :=
  (clickSubmit LocalTZA Store saveBooking barbershop service data).
Local Abbreviation request := (requestOf LocalTZA barbershop service).

(** X1.  Whatever the selection, the session and the storage action do, the
    submit handler never throws: it completes normally or by its early
    [return].  It always leaves [submitIsLoading] false, never touches
    [dayBookings], and only appends to the log. *)
Theorem submit_always_resolves (w : World Store) :
  (fst (submit w) = Normal tt \/ fst (submit w) = Return)
  /\ submitIsLoading (ui (snd (submit w))) = false
  /\ dayBookings (ui (snd (submit w))) = dayBookings (ui w)
  /\ exists added, log (snd (submit w)) = log w ++ added.
Proof.
  destruct (submit_cases LocalTZA Store saveBooking barbershop service data w)
    as [[G E] | (h & d & u & Hh & Hne & Hd & Hu & G)].
  - rewrite E. cbn. repeat split; auto. exists []. now rewrite app_nil_r.
  - destruct (saveBooking (request h d u) (store w)) as [st r] eqn:Hs.
    rewrite (submit_sent LocalTZA Store saveBooking barbershop service data
               w h d u st r Hh Hne Hd Hu Hs).
    cbn [fst snd ui log]. split; [now left|].
    split; [now destruct r|]. split; [now destruct r|]. eauto.
Qed.

(** X2.  A success toast is shown only after the storage action has
    resolved: a toast added by a run comes with the resolved [saveBooking]
    call of that run, and the date it shows is the valid date that call
    sent. *)
Theorem toast_only_after_resolved_save (w : World Store) title shown :
  In (Toast title shown) (log (snd (submit w))) ->
  ~ In (Toast title shown) (log w) ->
  exists p st,
    saveBooking p (store w) = (st, None)
    /\ In (SaveBooking p None) (log (snd (submit w)))
    /\ SaveBookingParams.date p = shown
    /\ shown <> Invalid
    /\ store (snd (submit w)) = st.
Proof.
  intros HIn Hold.
  destruct (submit_cases LocalTZA Store saveBooking barbershop service data w)
    as [[G E] | (h & d & u & Hh & Hne & Hd & Hu & G)].
  - rewrite E in HIn. contradiction.
  - destruct (saveBooking (request h d u) (store w)) as [st r] eqn:Hs.
    rewrite (submit_sent LocalTZA Store saveBooking barbershop service data
               w h d u st r Hh Hne Hd Hu Hs) in *.
    cbn [snd log store] in *.
    apply in_app_or in HIn. destruct HIn as [HIn | [HIn | HIn]];
      [contradiction | discriminate |].
    destruct r as [e|]; [destruct HIn as [HIn | []]; discriminate|].
    destruct (SaveBookingParams.date (request h d u)) as [|t] eqn:Hp;
      destruct HIn as [HIn | []]; try discriminate.
    injection HIn as <- <-.
    exists (request h d u), st. repeat split; try assumption.
    + apply in_or_app. right. now left.
    + discriminate.
Qed.

(** X3.  Once the storage action has resolved, the sheet is closed and the
    selection cleared, whether or not the toast could be shown; a second
    submit, by the handler or by a click on the button, then does nothing:
    the same booking cannot be sent twice by clicking again. *)
Theorem confirmed_submit_cannot_repeat (w : World Store) h d u st :
  hour (ui w) = Some h -> h <> EmptyString ->
  date (ui w) = Some d -> data_user data = Some u ->
  saveBooking (request h d u) (store w) = (st, None) ->
  ui (snd (submit w)) = cleared (ui w)
  /\ store (snd (submit w)) = st
  /\ submit (snd (submit w)) = (Return, snd (submit w))
  /\ click (snd (submit w)) = (Normal tt, snd (submit w)).
Proof.
  intros Hh Hne Hd Hu Hs.
  rewrite (submit_sent LocalTZA Store saveBooking barbershop service data
             w h d u st None Hh Hne Hd Hu Hs).
  cbn [snd ui store]. split; [reflexivity|]. split; [reflexivity|]. split.
  - rewrite submit_guard by reflexivity. reflexivity.
  - reflexivity.
Qed.

(** X4.  After a failed storage action the selection is kept and the button
    is enabled again, so the user can retry: a click then sends the very
    same request to the storage action. *)
Theorem failed_submit_can_be_retried (w : World Store) h d u st e st' r :
  hour (ui w) = Some h -> h <> EmptyString ->
  date (ui w) = Some d -> data_user data = Some u ->
  saveBooking (request h d u) (store w) = (st, Some e) ->
  saveBooking (request h d u) st = (st', r) ->
  submitDisabled (ui (snd (submit w))) = false
  /\ log (snd (click (snd (submit w))))
     = log (snd (submit w))
       ++ SaveBooking (request h d u) r
          :: match r with
             | Some e' => [ConsoleError e']
             | None =>
                 match SaveBookingParams.date (request h d u) with
                 | At t => [Toast "Reserva realizada com sucesso!" (At t)]
                 | Invalid => [ConsoleError (RangeError "Invalid time value")]
                 end
             end
  /\ store (snd (click (snd (submit w)))) = st'.
Proof.
  intros Hh Hne Hd Hu Hs Hs'.
  rewrite (submit_sent LocalTZA Store saveBooking barbershop service data
             w h d u st (Some e) Hh Hne Hd Hu Hs).
  cbn [snd]. set (w1 := {| ui := settled (ui w); store := st; log := _ |}).
  assert (D : submitDisabled (ui w1) = false).
  { unfold submitDisabled. cbn. rewrite Hh, Hd. now destruct h. }
  split; [exact D|]. unfold clickSubmit. rewrite D.
  rewrite (submit_sent LocalTZA Store saveBooking barbershop service data
             w1 h d u st' r Hh Hne Hd Hu Hs').
  split; reflexivity.
Qed.

(** X5.  What the handler leaves in the component state and in the log
    depends on the store only through the answer of the storage action: two
    runs from the same render and log, over any two stores and storage
    actions that answer every request alike, end in the same state, the same
    log and the same completion. *)
Theorem submit_sees_store_only_through_answer
    (Store' : Type)
    (saveBooking' : SaveBookingParams.t -> Store' -> Store' * option Error)
    (w : World Store) (w' : World Store') :
  ui w = ui w' -> log w = log w' ->
  (forall p, snd (saveBooking p (store w)) = snd (saveBooking' p (store w'))) ->
  fst (submit w)
  = fst (handleBookingSubmit LocalTZA Store' saveBooking' barbershop service
           data w')
  /\ ui (snd (submit w))
     = ui (snd (handleBookingSubmit LocalTZA Store' saveBooking' barbershop
                  service data w'))
  /\ log (snd (submit w))
     = log (snd (handleBookingSubmit LocalTZA Store' saveBooking' barbershop
                   service data w')).
Proof.
  intros Hui Hlog Hans.
  destruct (submit_cases LocalTZA Store saveBooking barbershop service data w)
    as [[G E] | (h & d & u & Hh & Hne & Hd & Hu & G)].
  - rewrite E. rewrite Hui in G.
    rewrite (submit_guard LocalTZA Store' saveBooking' barbershop service data
               w' G).
    cbn. now rewrite Hui, Hlog.
  - destruct (saveBooking (request h d u) (store w)) as [st r] eqn:Hs.
    destruct (saveBooking' (request h d u) (store w')) as [st' r'] eqn:Hs'.
    assert (r = r').
    { specialize (Hans (request h d u)). now rewrite Hs, Hs' in Hans. }
    subst r'.
    rewrite (submit_sent LocalTZA Store saveBooking barbershop service data
               w h d u st r Hh Hne Hd Hu Hs).
    rewrite Hui in Hh, Hd.
    rewrite (submit_sent LocalTZA Store' saveBooking' barbershop service data
               w' h d u st' r Hh Hne Hd Hu Hs').
    cbn. now rewrite Hui, Hlog.
Qed.

(** X6.  When the confirm button is enabled, the only thing that can still
    stop the handler at its guard is a session without a user. *)
Theorem enabled_button_stops_only_without_user (s : State) :
  submitDisabled s = false ->
  (guardStops s data = true <-> data_user data = None).
Proof.
  unfold submitDisabled, guardStops.
  destruct (hour s) as [[|c h]|], (date s), (submitIsLoading s),
    (data_user data); cbn; intuition congruence.
Qed.

End SubmitMore.

(** ** Day and hour selection, the day effect and the slot list *)

Arguments timeList : simpl never.

Section Selection.

Variable LocalTZA : Z -> bool -> Z.
Variable Store : Type.
Variable saveBooking : SaveBookingParams.t -> Store -> Store * option Error.
Variable getDayBookings : string -> Date -> Store -> list Booking.t.
Variable generateDayTimeList : Date -> list string.
Variable barbershop : Barbershop.t.
Variable service : Service.t.
Variable data : option Session.t.

Local Abbreviation click :=
  (clickSubmit LocalTZA Store saveBooking barbershop service data).
Local Abbreviation request := (requestOf LocalTZA barbershop service).
Local Abbreviation effect := (dateEffect Store getDayBookings barbershop).
Local Abbreviation slots := (timeList LocalTZA generateDayTimeList).

(** X7.  Selecting a day (or unselecting it) always drops the selected hour:
    afterwards the confirm button is disabled and a click on it does
    nothing, so an hour chosen for one day is never submitted for another.
    Store, log and fetched bookings are untouched. *)
Theorem new_day_disables_submit (w : World Store) (value : option Date) :
  date (ui (snd (handleDateClick Store value w))) = value
  /\ hour (ui (snd (handleDateClick Store value w))) = None
  /\ dayBookings (ui (snd (handleDateClick Store value w))) = dayBookings (ui w)
  /\ store (snd (handleDateClick Store value w)) = store w
  /\ log (snd (handleDateClick Store value w)) = log w
  /\ submitDisabled (ui (snd (handleDateClick Store value w))) = true
  /\ click (snd (handleDateClick Store value w))
     = (Normal tt, snd (handleDateClick Store value w)).
Proof.
  destruct w as [[d h l o bs] st lg]. cbn. repeat split.
Qed.

(** X8.  The day effect fetches only when a day is selected.  With a day
    selected it asks once, for this barbershop and that day, replaces
    [dayBookings] by the answer and changes nothing else, so that the slots
    then offered are the generated slots of the day that collide with no
    fetched booking.  With no day selected it does nothing at all. *)
Theorem day_effect_refreshes_the_slots (w : World Store) :
  (date (ui w) = None -> effect w = (Return, w))
  /\ (forall d, date (ui w) = Some d ->
        fst (effect w) = Normal tt
        /\ log (snd (effect w))
           = log w ++ [GetDayBookings (Barbershop.id barbershop) d]
        /\ store (snd (effect w)) = store w
        /\ dayBookings (ui (snd (effect w)))
           = getDayBookings (Barbershop.id barbershop) d (store w)
        /\ date (ui (snd (effect w))) = Some d
        /\ hour (ui (snd (effect w))) = hour (ui w)
        /\ submitIsLoading (ui (snd (effect w))) = submitIsLoading (ui w)
        /\ sheetIsOpen (ui (snd (effect w))) = sheetIsOpen (ui w)
        /\ slots (ui (snd (effect w)))
           = filterAvailable LocalTZA (generateDayTimeList d)
               (getDayBookings (Barbershop.id barbershop) d (store w))).
Proof.
  destruct w as [[d0 h l o bs] st lg]. unfold dateEffect. cbn [ui date].
  split.
  - intros ->. reflexivity.
  - intros d ->. cbn. repeat split.
    now apply timeList_filterAvailable.
Qed.

(** X9.  Selecting a day does not reset the fetched bookings: until the day
    effect has answered, the slots of the new day are filtered with the
    bookings fetched for the previous one.  A slot of the new day is then
    hidden whenever one of those bookings has its hour and minute. *)
Theorem new_day_is_filtered_with_previous_bookings
    (w : World Store) (d' : Date) :
  slots (ui (snd (handleDateClick Store (Some d') w)))
  = filterAvailable LocalTZA (generateDayTimeList d') (dayBookings (ui w))
  /\ forall slot booking,
       In booking (dayBookings (ui w)) ->
       sameTimeOfDay (bookingTimeOfDay LocalTZA booking) (slotTimeOfDay slot)
       = true ->
       ~ In slot (slots (ui (snd (handleDateClick Store (Some d') w)))).
Proof.
  assert (E : slots (ui (snd (handleDateClick Store (Some d') w)))
              = filterAvailable LocalTZA (generateDayTimeList d')
                  (dayBookings (ui w))).
  { destruct w as [[d h l o bs] st lg]. cbn.
    now apply timeList_filterAvailable. }
  split; [exact E|]. intros slot b Hb Hsame HIn. rewrite E in HIn.
  unfold filterAvailable in HIn. apply filter_In in HIn.
  destruct HIn as [_ HIn]. apply negb_true_iff in HIn.
  enough (existsb
            (fun booking =>
               sameTimeOfDay (bookingTimeOfDay LocalTZA booking)
                             (slotTimeOfDay slot)) (dayBookings (ui w)) = true)
    by congruence.
  apply existsb_exists. eauto.
Qed.

(** X10.  The day effect never clears the selected hour.  An hour picked
    while the bookings of the day were still on their way stays selected
    when they arrive, the button stays enabled, and a click sends the
    request for that hour, whether or not the fetched bookings still leave
    the slot in the list. *)
Theorem hour_picked_before_refresh_is_submitted
    (w : World Store) h d u st r :
  date (ui w) = Some d -> h <> EmptyString -> data_user data = Some u ->
  submitIsLoading (ui w) = false ->
  saveBooking (request h d u) (store w) = (st, r) ->
  hour (ui (snd (effect (snd (handleHourClick Store h w))))) = Some h
  /\ submitDisabled (ui (snd (effect (snd (handleHourClick Store h w)))))
     = false
  /\ In (SaveBooking (request h d u) r)
        (log (snd (click (snd (effect (snd (handleHourClick Store h w))))))).
Proof.
  destruct w as [[d0 h0 l o bs] st0 lg]. cbn [ui date submitIsLoading store].
  intros -> Hne Hu -> Hs.
  unfold dateEffect, handleHourClick. cbn.
  set (w2 := {| ui := _; store := st0; log := _ |}).
  assert (D : submitDisabled (ui w2) = false)
    by (unfold submitDisabled; cbn; now destruct h).
  split; [reflexivity|]. split; [exact D|].
  unfold clickSubmit. rewrite D.
  rewrite (submit_sent LocalTZA Store saveBooking barbershop service data
             w2 h d u st r eq_refl Hne eq_refl Hu Hs).
  cbn [snd log]. apply in_or_app. right. now left.
Qed.

End Selection.

(** ** More on the slot list *)

Section SlotList.

Variable LocalTZA : Z -> bool -> Z.
Variable generateDayTimeList : Date -> list string.

Local Abbreviation slots := (timeList LocalTZA generateDayTimeList).

Lemma filter_length_le {A : Type} (f : A -> bool) (l : list A) :
  (List.length (filter f l) <= List.length l)%nat.
Proof.
  induction l as [|a l IH]; cbn; [lia|]. destruct (f a); cbn; lia.
Qed.

(** X11.  The slot list only ever offers generated slots of the selected
    day: it is no longer than the generated sequence, it is the whole
    sequence when no booking was fetched, and it is empty when no day is
    selected. *)
Theorem timeList_offers_generated_slots_only (s : State) :
  (date s = None -> slots s = [])
  /\ (forall d, date s = Some d ->
        (forall slot, In slot (slots s) -> In slot (generateDayTimeList d))
        /\ (List.length (slots s) <= List.length (generateDayTimeList d))%nat
        /\ (dayBookings s = [] -> slots s = generateDayTimeList d)).
Proof.
  split.
  - intros E. unfold timeList. now rewrite E.
  - intros d E.
    rewrite (timeList_filterAvailable LocalTZA generateDayTimeList s d E).
    unfold filterAvailable. split; [|split].
    + intros slot H. now apply filter_In in H.
    + apply filter_length_le.
    + intros ->. cbn. induction (generateDayTimeList d) as [|a l IH];
        cbn; congruence.
Qed.

(** X12.  More fetched bookings never bring a slot back: if every booking
    of one render is also a booking of another render of the same day, every
    slot the second offers is offered by the first. *)
Theorem timeList_shrinks_with_bookings (s s' : State) :
  date s = date s' ->
  incl (dayBookings s) (dayBookings s') ->
  incl (slots s') (slots s).
Proof.
  intros Hd Hincl slot HIn.
  destruct (date s') as [d|] eqn:E'.
  - rewrite (timeList_filterAvailable LocalTZA generateDayTimeList s' d E') in HIn.
    rewrite (timeList_filterAvailable LocalTZA generateDayTimeList s d Hd).
    unfold filterAvailable in *. apply filter_In in HIn. apply filter_In.
    destruct HIn as [Hgen Hfree]. split; [exact Hgen|].
    apply negb_true_iff in Hfree. apply negb_true_iff.
    destruct (existsb _ (dayBookings s)) eqn:X; [|reflexivity].
    apply existsb_exists in X. destruct X as (b & Hb & Hsame).
    enough (existsb
              (fun booking =>
                 sameTimeOfDay (bookingTimeOfDay LocalTZA booking)
                               (slotTimeOfDay slot)) (dayBookings s') = true)
      by congruence.
    apply existsb_exists. exists b. split; [now apply Hincl | exact Hsame].
  - unfold timeList in HIn. rewrite E' in HIn. contradiction.
Qed.

(** X13.  The filter reads nothing of a booking but the local hour and
    minute of its date: two renders of the same day whose fetched bookings
    have, one by one, the same hours and minutes offer the same slots,
    whatever the days, businesses, services and users of those bookings. *)
Theorem timeList_reads_hour_and_minute_only (s s' : State) :
  date s = date s' ->
  map (bookingTimeOfDay LocalTZA) (dayBookings s)
  = map (bookingTimeOfDay LocalTZA) (dayBookings s') ->
  slots s = slots s'.
Proof.
  intros Hd Hm. destruct (date s') as [d|] eqn:E'.
  - rewrite (timeList_filterAvailable LocalTZA generateDayTimeList s d Hd).
    rewrite (timeList_filterAvailable LocalTZA generateDayTimeList s' d E').
    unfold filterAvailable. apply filter_ext. intros slot. f_equal.
    assert (X : forall B,
               existsb
                 (fun booking =>
                    sameTimeOfDay (bookingTimeOfDay LocalTZA booking)
                                  (slotTimeOfDay slot)) B
               = existsb (fun t => sameTimeOfDay t (slotTimeOfDay slot))
                   (map (bookingTimeOfDay LocalTZA) B)).
    { induction B as [|b B IH]; cbn; [reflexivity | now rewrite IH]. }
    now rewrite !X, Hm.
  - unfold timeList. now rewrite Hd, E'.
Qed.

(** X14.  A generated label whose hour part or minute part is not a number
    can never be filtered out: it is offered whatever bookings were
    fetched. *)
Theorem unreadable_label_is_always_offered (s : State) (d : Date) (slot : string) :
  date s = Some d ->
  fst (slotTimeOfDay slot) = Js.NaN \/ snd (slotTimeOfDay slot) = Js.NaN ->
  (In slot (slots s) <-> In slot (generateDayTimeList d)).
Proof.
  intros Hd Hnan.
  rewrite (timeList_filterAvailable LocalTZA generateDayTimeList s d Hd).
  unfold filterAvailable. rewrite filter_In. split; [tauto|].
  intros H. split; [exact H|]. apply negb_true_iff.
  induction (dayBookings s) as [|b B IH]; [reflexivity|].
  cbn [existsb]. rewrite IH, orb_false_r.
  unfold sameTimeOfDay, Js.strict_eq.
  destruct (bookingTimeOfDay LocalTZA b) as [bh bm]. cbn [fst snd].
  destruct Hnan as [-> | ->]; destruct bh, bm;
    try reflexivity; now rewrite ?andb_false_r.
Qed.

Lemma labelLt_irrefl (a : string) : ~ labelLt a a.
Proof.
  unfold labelLt, timeOfDayLt, num_lt.
  rewrite !lt_irrefl, andb_false_r. discriminate.
Qed.

Lemma ascending_NoDup (l : list string) : ascending l = true -> NoDup l.
Proof.
  induction l as [|a l IH]; intros H; [constructor|].
  apply ascending_cons in H. destruct H as [Hall Hl].
  constructor; [|now apply IH].
  intros HIn. rewrite Forall_forall in Hall.
  exact (labelLt_irrefl a (Hall a HIn)).
Qed.

Lemma NoDup_one_match (h : string) (l : list string) :
  NoDup l -> (List.length (filter (String.eqb h) l) <= 1)%nat.
Proof.
  induction 1 as [|a l Hnotin Hnd IH]; cbn; [lia|].
  destruct (String.eqb h a) eqn:E; [|exact IH].
  apply String.eqb_eq in E. subst a. cbn.
  enough (filter (String.eqb h) l = []) as -> by (cbn; lia).
  destruct (filter (String.eqb h) l) as [|x rest] eqn:F; [reflexivity|exfalso].
  assert (Hx : In x (filter (String.eqb h) l)) by (rewrite F; now left).
  apply filter_In in Hx. destruct Hx as [Hx Eq]. apply String.eqb_eq in Eq.
  now subst x.
Qed.

Lemma filter_snd_map {A : Type} (f : A -> bool) (l : list A) :
  List.length (filter snd (map (fun a => (a, f a)) l))
  = List.length (filter f l).
Proof.
  induction l as [|a l IH]; [reflexivity|].
  cbn [map filter snd]. destruct (f a); cbn [List.length]; now rewrite IH.
Qed.

(** X15.  When the generated slots of the selected day are strictly
    ascending, the labels of the slot buttons are pairwise distinct (they
    are the keys of the buttons) and at most one button is shown as the
    selected one. *)
Theorem slot_buttons_have_distinct_keys (s : State) (d : Date) :
  date s = Some d ->
  ascending (generateDayTimeList d) = true ->
  map fst (slotButtons LocalTZA generateDayTimeList s) = slots s
  /\ NoDup (slots s)
  /\ (List.length
        (filter snd (slotButtons LocalTZA generateDayTimeList s)) <= 1)%nat.
Proof.
  intros Hd Hasc.
  assert (Hnd : NoDup (slots s)).
  { apply ascending_NoDup. unfold timeList. rewrite Hd.
    now apply ascending_filter. }
  unfold slotButtons. rewrite Hd. cbn [Js.truthy_ref].
  split; [|split; [exact Hnd|]].
  - rewrite map_map. cbn [fst]. apply map_id.
  - rewrite filter_snd_map. unfold hourIs. destruct (hour s) as [h|].
    + now apply NoDup_one_match.
    + clear Hnd.
      enough (E : filter (fun _ : string => false) (slots s) = [])
        by (rewrite E; cbn; lia).
      induction (slots s) as [|a l IH]; [reflexivity | exact IH].
Qed.

(** X16.  The text that no time is available is shown exactly when a day is
    selected and every generated slot of that day has the hour and minute of
    a fetched booking; in particular when nothing is generated. *)
Theorem no_slots_message_iff_all_booked (s : State) :
  showsNoSlotsMessage LocalTZA generateDayTimeList s = true
  <-> exists d,
        date s = Some d
        /\ forall slot, In slot (generateDayTimeList d) ->
             exists booking,
               In booking (dayBookings s)
               /\ sameTimeOfDay (bookingTimeOfDay LocalTZA booking)
                                (slotTimeOfDay slot) = true.
Proof.
  unfold showsNoSlotsMessage. destruct (date s) as [d|] eqn:Hd; cbn [Js.truthy_ref andb].
  - rewrite Nat.eqb_eq, length_zero_iff_nil.
    rewrite (timeList_filterAvailable LocalTZA generateDayTimeList s d Hd).
    unfold filterAvailable. split.
    + intros E. exists d. split; [reflexivity|]. intros slot HIn.
      destruct (existsb
                  (fun booking =>
                     sameTimeOfDay (bookingTimeOfDay LocalTZA booking)
                                   (slotTimeOfDay slot)) (dayBookings s)) eqn:X.
      * apply existsb_exists in X. exact X.
      * exfalso.
        assert (H : In slot
                      (filter
                         (fun slot0 =>
                            negb (existsb
                                    (fun booking =>
                                       sameTimeOfDay
                                         (bookingTimeOfDay LocalTZA booking)
                                         (slotTimeOfDay slot0))
                                    (dayBookings s)))
                         (generateDayTimeList d))).
        { apply filter_In. split; [exact HIn|]. now rewrite X. }
        rewrite E in H. contradiction.
    + intros (d' & Ed & Hall). injection Ed as <-.
      destruct (filter _ (generateDayTimeList d)) as [|x rest] eqn:F;
        [reflexivity|exfalso].
      assert (Hx : In x (filter
                           (fun slot0 =>
                              negb (existsb
                                      (fun booking =>
                                         sameTimeOfDay
                                           (bookingTimeOfDay LocalTZA booking)
                                           (slotTimeOfDay slot0))
                                      (dayBookings s)))
                           (generateDayTimeList d)))
        by (rewrite F; now left).
      apply filter_In in Hx. destruct Hx as [Hgen Hfree].
      apply negb_true_iff in Hfree.
      destruct (Hall x Hgen) as (b & Hb & Hsame).
      enough (existsb
                (fun booking =>
                   sameTimeOfDay (bookingTimeOfDay LocalTZA booking)
                                 (slotTimeOfDay x)) (dayBookings s) = true)
        by congruence.
      apply existsb_exists. eauto.
  - split; [discriminate | intros (d & Ed & _); discriminate].
Qed.

End SlotList.

(** ** The date that is sent, at the edges *)

Section SentDate.

Variable LocalTZA : Z -> bool -> Z.
Variable Store : Type.
Variable saveBooking : SaveBookingParams.t -> Store -> Store * option Error.
Variable barbershop : Barbershop.t.
Variable service : Service.t.
Variable data : option Session.t.

Local Abbreviation submit :=
  (handleBookingSubmit LocalTZA Store saveBooking barbershop service data).
Local Abbreviation request := (requestOf LocalTZA barbershop service).

Lemma split_without_separator (sep : ascii) (s : string) :
  occurs sep s = false -> Js.split sep s = [s].
Proof.
  induction s as [|c s IH]; [reflexivity|].
  cbn [occurs]. intros H. apply orb_false_elim in H. destruct H as [Hc Hs].
  unfold Js.split. fold Js.split. rewrite Hc, (IH Hs). reflexivity.
Qed.

(** X17.  The handler does not check the shape of the selected label.  For
    a label without a colon the minute part is missing, the date built from
    it is an Invalid Date, and that is what is sent; if the storage action
    resolves, the sheet closes and the selection is cleared, but the toast
    is not shown: formatting its text throws a [RangeError], which is caught
    and logged. *)
Theorem label_without_colon_sends_invalid_date (w : World Store) h d u st :
  hour (ui w) = Some h -> h <> EmptyString -> occurs ":" h = false ->
  date (ui w) = Some d -> data_user data = Some u ->
  saveBooking (request h d u) (store w) = (st, None) ->
  SaveBookingParams.date (request h d u) = Invalid
  /\ submit w
     = (Normal tt,
        {| ui := cleared (ui w); store := st;
           log := log w
                  ++ [SaveBooking (request h d u) None;
                      ConsoleError (RangeError "Invalid time value")] |}).
Proof.
  intros Hh Hne Hc Hd Hu Hs.
  assert (E : SaveBookingParams.date (request h d u) = Invalid).
  { unfold requestOf. cbn [SaveBookingParams.date].
    rewrite (split_without_separator ":" h Hc).
    unfold setMinutes, nativeSetMinutes.
    now destruct (setHours LocalTZA d _). }
  split; [exact E|].
  rewrite (submit_sent LocalTZA Store saveBooking barbershop service data
             w h d u st None Hh Hne Hd Hu Hs).
  now rewrite E.
Qed.

End SentDate.

Section Rollover.

Variable LocalTZA : Z -> bool -> Z.

Lemma carry_over (D hh mm s ms : Z) :
  0 <= s < 60 -> 0 <= ms < 1000 ->
  let x := D * 86400000 + (hh * 3600000 + mm * 60000 + s * 1000 + ms) in
  x / 86400000 = D + (60 * hh + mm) / 1440
  /\ (x / 3600000) mod 24 = ((60 * hh + mm) / 60) mod 24
  /\ (x / 60000) mod 60 = mm mod 60.
Proof.
  intros Bs Bms x.
  assert (Q : x / 60000 = D * 1440 + (60 * hh + mm)).
  { subst x. Z.to_euclidean_division_equations; lia. }
  assert (A : x / 86400000 = x / 60000 / 1440).
  { generalize x. intros y. Z.to_euclidean_division_equations; lia. }
  assert (B : x / 3600000 = x / 60000 / 60).
  { generalize x. intros y. Z.to_euclidean_division_equations; lia. }
  rewrite A, B, Q. clearbody x. clear.
  repeat split; Z.to_euclidean_division_equations; lia.
Qed.

(** X18.  The first day the calendar offers is the calendar day after the
    clock's, at the same time of day: when that local time exists on the
    next day (no clock change skips it), [addDays(new Date(), 1)] moves the
    local day by one and keeps hours, minutes, seconds and milliseconds,
    however many hours later that is. *)
Theorem calendar_opens_on_the_next_day (now t' : Z) :
  calendarFromDate LocalTZA (At now) = At t' ->
  existsLocally LocalTZA (LocalTime LocalTZA now + msPerDay) = true ->
  localDay LocalTZA (At t') = Js.Num (Day (LocalTime LocalTZA now) + 1)
  /\ getHours LocalTZA (At t') = getHours LocalTZA (At now)
  /\ getMinutes LocalTZA (At t') = getMinutes LocalTZA (At now)
  /\ getSeconds LocalTZA (At t') = getSeconds LocalTZA (At now)
  /\ getMilliseconds LocalTZA (At t') = getMilliseconds LocalTZA (At now).
Proof.
  unfold calendarFromDate. rewrite addDays_one. intros E X.
  apply TimeClip_At in E. apply Z.eqb_eq in X. rewrite <- E in X.
  unfold localDay, getHours, getMinutes, getSeconds, getMilliseconds, getter.
  rewrite X. generalize (LocalTime LocalTZA now). intros l.
  unfold Day, HourFromTime, MinFromTime, SecFromTime, msFromTime,
    msPerDay, msPerHour, msPerMinute, msPerSecond.
  repeat split; f_equal; Z.to_euclidean_division_equations; lia.
Qed.

(** X19.  The handler does not check the range of the numbers read from the
    label either: hours of 24 or more and minutes of 60 or more carry over.
    When the two local times the setters pass through exist in the zone, the
    date sent lies [(60 * hours + minutes) / 1440] calendar days after the
    selected day, at the hour and minute that remain. *)
Theorem label_beyond_the_day_carries_over
    (barbershop : Barbershop.t) (service : Service.t) (u : User.t)
    (h : string) (t hh mm t' : Z) :
  Js.Number (Js.index (Js.split ":" h) 0) = Js.Num hh ->
  Js.Number (Js.index (Js.split ":" h) 1) = Js.Num mm ->
  SaveBookingParams.date (requestOf LocalTZA barbershop service h (At t) u)
    = At t' ->
  existsLocally LocalTZA
    (MakeDate (Day (LocalTime LocalTZA t))
       (MakeTime hh (MinFromTime (LocalTime LocalTZA t))
          (SecFromTime (LocalTime LocalTZA t))
          (msFromTime (LocalTime LocalTZA t)))) = true ->
  existsLocally LocalTZA
    (MakeDate (Day (LocalTime LocalTZA t))
       (MakeTime hh mm (SecFromTime (LocalTime LocalTZA t))
          (msFromTime (LocalTime LocalTZA t)))) = true ->
  localDay LocalTZA (At t')
  = Js.Num (Day (LocalTime LocalTZA t) + (60 * hh + mm) / 1440)
  /\ getHours LocalTZA (At t') = Js.Num (((60 * hh + mm) / 60) mod 24)
  /\ getMinutes LocalTZA (At t') = Js.Num (mm mod 60).
Proof.
  intros Nh Nm Hp X1 X2. unfold requestOf in Hp.
  cbn [SaveBookingParams.date] in Hp.
  rewrite Nh, Nm in Hp.
  apply (setMinutes_setHours_local LocalTZA _ _ _ _ X1 X2) in Hp.
  destruct (fields_bounds (LocalTime LocalTZA t)) as (_ & Bs & Bms).
  destruct (carry_over (Day (LocalTime LocalTZA t)) hh mm
              (SecFromTime (LocalTime LocalTZA t))
              (msFromTime (LocalTime LocalTZA t)) Bs Bms) as (Cd & Ch & Cm).
  unfold localDay, getHours, getMinutes, getter. rewrite Hp.
  unfold MakeDate, MakeTime.
  unfold Day at 1. unfold HourFromTime at 1. unfold MinFromTime at 1.
  unfold msPerDay, msPerHour, msPerMinute, msPerSecond in *.
  now rewrite Cd, Ch, Cm.
Qed.

End Rollover.

(** ** The further properties on the sample client *)

Lemma toast_only_after_resolved_save_witness :
  exists p st,
    BookingStore.createBooking Sample.zone Sample.newId p [] = (st, None)
    /\ In (SaveBooking p None)
          (log (snd (Sample.submit Sample.session
                       (Sample.world Sample.picked0900 []))))
    /\ SaveBookingParams.date p = At 1699617600000
    /\ At 1699617600000 <> Invalid
    /\ store (snd (Sample.submit Sample.session
                     (Sample.world Sample.picked0900 []))) = st.
Proof.
  apply (toast_only_after_resolved_save Sample.zone BookingStore.Store
           (BookingStore.createBooking Sample.zone Sample.newId)
           Sample.shop Sample.cut Sample.session
           (Sample.world Sample.picked0900 [])
           "Reserva realizada com sucesso!" (At 1699617600000)).
  - right. left. reflexivity.
  - intros [].
Defined.

Lemma confirmed_submit_cannot_repeat_witness :
  ui (snd (Sample.submit Sample.session (Sample.world Sample.picked0900 [])))
  = cleared Sample.picked0900
  /\ store (snd (Sample.submit Sample.session
                   (Sample.world Sample.picked0900 [])))
     = fst (BookingStore.createBooking Sample.zone Sample.newId
              Sample.request0900 [])
  /\ Sample.submit Sample.session
       (snd (Sample.submit Sample.session (Sample.world Sample.picked0900 [])))
     = (Return,
        snd (Sample.submit Sample.session (Sample.world Sample.picked0900 [])))
  /\ clickSubmit Sample.zone BookingStore.Store
       (BookingStore.createBooking Sample.zone Sample.newId)
       Sample.shop Sample.cut Sample.session
       (snd (Sample.submit Sample.session (Sample.world Sample.picked0900 [])))
     = (Normal tt,
        snd (Sample.submit Sample.session (Sample.world Sample.picked0900 []))).
Proof.
  apply (confirmed_submit_cannot_repeat Sample.zone BookingStore.Store
           (BookingStore.createBooking Sample.zone Sample.newId)
           Sample.shop Sample.cut Sample.session
           (Sample.world Sample.picked0900 []) "09:00" Sample.day Sample.ana);
    try reflexivity.
  discriminate.
Defined.

Lemma failed_submit_can_be_retried_witness :
  submitDisabled
    (ui (snd (Sample.submit Sample.session
                (Sample.world Sample.picked0900 [Sample.taken0900])))) = false
  /\ log (snd (clickSubmit Sample.zone BookingStore.Store
                 (BookingStore.createBooking Sample.zone Sample.newId)
                 Sample.shop Sample.cut Sample.session
                 (snd (Sample.submit Sample.session
                         (Sample.world Sample.picked0900 [Sample.taken0900])))))
     = log (snd (Sample.submit Sample.session
                   (Sample.world Sample.picked0900 [Sample.taken0900])))
       ++ [SaveBooking
             (requestOf Sample.zone Sample.shop Sample.cut "09:00" Sample.day
                Sample.ana) (Some SlotTaken);
           ConsoleError SlotTaken]
  /\ store (snd (clickSubmit Sample.zone BookingStore.Store
                   (BookingStore.createBooking Sample.zone Sample.newId)
                   Sample.shop Sample.cut Sample.session
                   (snd (Sample.submit Sample.session
                           (Sample.world Sample.picked0900
                              [Sample.taken0900])))))
     = [Sample.taken0900].
Proof.
  apply (failed_submit_can_be_retried Sample.zone BookingStore.Store
           (BookingStore.createBooking Sample.zone Sample.newId)
           Sample.shop Sample.cut Sample.session
           (Sample.world Sample.picked0900 [Sample.taken0900])
           "09:00" Sample.day Sample.ana [Sample.taken0900] SlotTaken
           [Sample.taken0900] (Some SlotTaken));
    try reflexivity.
  discriminate.
Defined.

Lemma submit_sees_store_only_through_answer_witness :
  fst (Sample.submit Sample.session (Sample.world Sample.picked0900 []))
  = fst (handleBookingSubmit Sample.zone unit (fun _ _ => (tt, None))
           Sample.shop Sample.cut Sample.session
           {| ui := Sample.picked0900; store := tt; log := [] |})
  /\ ui (snd (Sample.submit Sample.session (Sample.world Sample.picked0900 [])))
     = ui (snd (handleBookingSubmit Sample.zone unit (fun _ _ => (tt, None))
                  Sample.shop Sample.cut Sample.session
                  {| ui := Sample.picked0900; store := tt; log := [] |}))
  /\ log (snd (Sample.submit Sample.session (Sample.world Sample.picked0900 [])))
     = log (snd (handleBookingSubmit Sample.zone unit (fun _ _ => (tt, None))
                   Sample.shop Sample.cut Sample.session
                   {| ui := Sample.picked0900; store := tt; log := [] |})).
Proof.
  apply (submit_sees_store_only_through_answer Sample.zone BookingStore.Store
           (BookingStore.createBooking Sample.zone Sample.newId)
           Sample.shop Sample.cut Sample.session
           unit (fun _ _ => (tt, None))
           (Sample.world Sample.picked0900 [])
           {| ui := Sample.picked0900; store := tt; log := [] |});
    try reflexivity.
Defined.

Lemma enabled_button_stops_only_without_user_witness :
  submitDisabled Sample.picked0900 = false
  /\ (guardStops Sample.picked0900 Sample.anonymous = true
      <-> data_user Sample.anonymous = None).
Proof.
  split; [reflexivity|].
  apply (enabled_button_stops_only_without_user Sample.anonymous
           Sample.picked0900).
  reflexivity.
Defined.

Lemma day_effect_refreshes_the_slots_witness :
  date Sample.noHour = Some Sample.day
  /\ timeList Sample.zone Sample.hours
       (ui (snd (dateEffect BookingStore.Store
                   (BookingStore.listBookingsForDay Sample.zone) Sample.shop
                   (Sample.world Sample.noHour [Sample.taken0900]))))
     = filterAvailable Sample.zone (Sample.hours Sample.day)
         (BookingStore.listBookingsForDay Sample.zone "shop-1" Sample.day
            [Sample.taken0900]).
Proof.
  split; [reflexivity|].
  apply (proj2 (day_effect_refreshes_the_slots Sample.zone BookingStore.Store
                  (BookingStore.listBookingsForDay Sample.zone) Sample.hours
                  Sample.shop (Sample.world Sample.noHour [Sample.taken0900]))
           Sample.day eq_refl).
Defined.

(** The bookings of the day arrive after 09:00 was picked and exclude it;
    the click still sends the request for 09:00. *)
Lemma hour_picked_before_refresh_is_submitted_witness :
  timeList Sample.zone Sample.hours
    (ui (snd (dateEffect BookingStore.Store
                (BookingStore.listBookingsForDay Sample.zone) Sample.shop
                (snd (handleHourClick BookingStore.Store "09:00"
                        (Sample.world Sample.noHour [Sample.taken0900]))))))
  = ["10:00"; "11:00"]
  /\ hour
       (ui (snd (dateEffect BookingStore.Store
                   (BookingStore.listBookingsForDay Sample.zone) Sample.shop
                   (snd (handleHourClick BookingStore.Store "09:00"
                           (Sample.world Sample.noHour [Sample.taken0900]))))))
     = Some "09:00"
  /\ submitDisabled
       (ui (snd (dateEffect BookingStore.Store
                   (BookingStore.listBookingsForDay Sample.zone) Sample.shop
                   (snd (handleHourClick BookingStore.Store "09:00"
                           (Sample.world Sample.noHour [Sample.taken0900]))))))
     = false
  /\ In (SaveBooking
           (requestOf Sample.zone Sample.shop Sample.cut "09:00" Sample.day
              Sample.ana) (Some SlotTaken))
        (log (snd (clickSubmit Sample.zone BookingStore.Store
                     (BookingStore.createBooking Sample.zone Sample.newId)
                     Sample.shop Sample.cut Sample.session
                     (snd (dateEffect BookingStore.Store
                             (BookingStore.listBookingsForDay Sample.zone)
                             Sample.shop
                             (snd (handleHourClick BookingStore.Store "09:00"
                                     (Sample.world Sample.noHour
                                        [Sample.taken0900])))))))).
Proof.
  split; [vm_compute; reflexivity|].
  apply (hour_picked_before_refresh_is_submitted Sample.zone BookingStore.Store
           (BookingStore.createBooking Sample.zone Sample.newId)
           (BookingStore.listBookingsForDay Sample.zone)
           Sample.shop Sample.cut Sample.session
           (Sample.world Sample.noHour [Sample.taken0900])
           "09:00" Sample.day Sample.ana [Sample.taken0900] (Some SlotTaken));
    try reflexivity.
  discriminate.
Defined.

Lemma timeList_offers_generated_slots_only_witness :
  date Sample.picked0900 = Some Sample.day
  /\ dayBookings Sample.picked0900 = []
  /\ timeList Sample.zone Sample.hours Sample.picked0900
     = Sample.hours Sample.day.
Proof.
  split; [reflexivity|]. split; [reflexivity|].
  apply (proj2 (timeList_offers_generated_slots_only Sample.zone Sample.hours
                  Sample.picked0900) Sample.day eq_refl).
  reflexivity.
Defined.

Lemma timeList_shrinks_with_bookings_witness :
  incl
    (timeList Sample.zone Sample.hours
       {| date := Some Sample.day; hour := None; submitIsLoading := false;
          sheetIsOpen := true; dayBookings := [Sample.taken0900] |})
    (timeList Sample.zone Sample.hours Sample.noHour).
Proof.
  apply (timeList_shrinks_with_bookings Sample.zone Sample.hours
           Sample.noHour
           {| date := Some Sample.day; hour := None; submitIsLoading := false;
              sheetIsOpen := true; dayBookings := [Sample.taken0900] |}).
  - reflexivity.
  - intros b [].
Defined.

(** A booking of another shop, a day later, at the same local 09:00, hides
    the slot just as the booking of the day does. *)
Lemma timeList_reads_hour_and_minute_only_witness :
  timeList Sample.zone Sample.hours
    {| date := Some Sample.day; hour := None; submitIsLoading := false;
       sheetIsOpen := true; dayBookings := [Sample.taken0900] |}
  = timeList Sample.zone Sample.hours
      {| date := Some Sample.day; hour := None; submitIsLoading := false;
         sheetIsOpen := true;
         dayBookings :=
           [ {| Booking.id := "booking-9"; Booking.userId := None;
                Booking.serviceId := "service-7";
                Booking.barbershopId := "shop-2";
                Booking.date := At 1699704000000 |} ] |}.
Proof.
  apply (timeList_reads_hour_and_minute_only Sample.zone Sample.hours);
    reflexivity.
Defined.

Lemma unreadable_label_is_always_offered_witness :
  In "noon"
     (timeList Sample.zone (fun _ => ["09:00"; "noon"])
        {| date := Some Sample.day; hour := None; submitIsLoading := false;
           sheetIsOpen := true; dayBookings := [Sample.taken0900] |})
  <-> In "noon" ["09:00"; "noon"].
Proof.
  apply (unreadable_label_is_always_offered Sample.zone
           (fun _ => ["09:00"; "noon"])
           {| date := Some Sample.day; hour := None; submitIsLoading := false;
              sheetIsOpen := true; dayBookings := [Sample.taken0900] |}
           Sample.day "noon").
  - reflexivity.
  - left. reflexivity.
Defined.

Lemma slot_buttons_have_distinct_keys_witness :
  map fst (slotButtons Sample.zone Sample.hours Sample.picked0900)
  = timeList Sample.zone Sample.hours Sample.picked0900
  /\ NoDup (timeList Sample.zone Sample.hours Sample.picked0900)
  /\ (List.length
        (filter snd (slotButtons Sample.zone Sample.hours Sample.picked0900))
      <= 1)%nat.
Proof.
  apply (slot_buttons_have_distinct_keys Sample.zone Sample.hours
           Sample.picked0900 Sample.day); reflexivity.
Defined.

Lemma label_without_colon_sends_invalid_date_witness :
  SaveBookingParams.date
    (requestOf Sample.zone Sample.shop Sample.cut "0930" Sample.day Sample.ana)
  = Invalid
  /\ handleBookingSubmit Sample.zone unit (fun _ _ => (tt, None))
       Sample.shop Sample.cut Sample.session
       {| ui := {| date := Some Sample.day; hour := Some "0930";
                   submitIsLoading := false; sheetIsOpen := true;
                   dayBookings := [] |};
          store := tt; log := [] |}
     = (Normal tt,
        {| ui := cleared
                   {| date := Some Sample.day; hour := Some "0930";
                      submitIsLoading := false; sheetIsOpen := true;
                      dayBookings := [] |};
           store := tt;
           log := [] ++
                  [SaveBooking
                     (requestOf Sample.zone Sample.shop Sample.cut "0930"
                        Sample.day Sample.ana) None;
                   ConsoleError (RangeError "Invalid time value")] |}).
Proof.
  apply (label_without_colon_sends_invalid_date Sample.zone unit
           (fun _ _ => (tt, None)) Sample.shop Sample.cut Sample.session
           {| ui := {| date := Some Sample.day; hour := Some "0930";
                       submitIsLoading := false; sheetIsOpen := true;
                       dayBookings := [] |};
              store := tt; log := [] |}
           "0930" Sample.day Sample.ana tt);
    try reflexivity.
  discriminate.
Defined.

(** In New York, from 14:00 on 9 March 2024 to 14:00 on 10 March: the next
    calendar day at the same time of day, 23 hours later. *)
Lemma calendar_opens_on_the_next_day_witness :
  calendarFromDate Sample.newYork (At 1710010800000) = At 1710093600000
  /\ localDay Sample.newYork (At 1710093600000)
     = Js.Num (Day (LocalTime Sample.newYork 1710010800000) + 1)
  /\ getHours Sample.newYork (At 1710093600000)
     = getHours Sample.newYork (At 1710010800000)
  /\ getHours Sample.newYork (At 1710093600000) = Js.Num 14.
Proof.
  split; [reflexivity|].
  destruct (calendar_opens_on_the_next_day Sample.newYork 1710010800000
              1710093600000 eq_refl eq_refl) as (Hd & Hh & _).
  split; [exact Hd|]. split; [exact Hh | reflexivity].
Defined.

(** The label 25:70 on 10 November lands on 11 November, 02:10. *)
Lemma label_beyond_the_day_carries_over_witness :
  SaveBookingParams.date
    (requestOf Sample.zone Sample.shop Sample.cut "25:70" Sample.day Sample.ana)
  = At 1699679400000
  /\ localDay Sample.zone (At 1699679400000)
     = Js.Num (Day (LocalTime Sample.zone 1699585200000) + (60 * 25 + 70) / 1440)
  /\ getHours Sample.zone (At 1699679400000)
     = Js.Num (((60 * 25 + 70) / 60) mod 24)
  /\ getMinutes Sample.zone (At 1699679400000) = Js.Num (70 mod 60).
Proof.
  split; [reflexivity|].
  apply (label_beyond_the_day_carries_over Sample.zone Sample.shop Sample.cut
           Sample.ana "25:70" 1699585200000 25 70 1699679400000);
    reflexivity.
Defined.
